(** * agent-browser: the [do] command's browser agent

    A shallow embedding of the two implementations of [BrowserAgent] found in
    the repository, and the properties of the specification checked against
    them:

    - [Plan]: the pull-style request/response loop of the implementation plan
      ([execute], [executeTool] and the daemon's [do] command handler);
    - [Sdk]: the push-style agent of [src/browser-agent.ts], which iterates the
      message stream of the agent SDK and registers one handler per tool.

    Modelling conventions.  A JavaScript [number] that counts turns, pixels or
    milliseconds is an integer ([Z]); tool inputs are flat objects whose
    fields are primitive values; asynchronous calls are awaited one after the
    other in the source, so they are modelled as sequential state passing over
    the state of the external collaborators (browser session, model service).
    An exception is an explicit outcome of a computation.

    The embedding comes first ([Plan], [Sdk]), then concrete sessions and
    conversations ([Scenarios]), then the properties ([PlanFacts],
    [SdkFacts]) and the agents run on the concrete conversations ([Runs]). *)

From stdpp Require Import base option list strings gmap pretty.
From Stdlib Require Import ZArith Lia.

(** ** JavaScript values *)

(** The primitive values a tool input can carry. *)
Inductive JsVal : Type :=
  | JUndefined
  | JNull
  | JBool (b : bool)
  | JNum (n : Z)
  | JStr (s : string).

(** Truthiness, as tested by [if (v)], [!v] and [v || d]. *)
Definition truthy (v : JsVal) : bool :=
  match v with
  | JUndefined | JNull => false
  | JBool b => b
  | JNum n => negb (n =? 0)%Z
  | JStr s => negb (String.eqb s "")
  end.

(** [a || b]: the left operand when it is truthy, the right one otherwise. *)
Definition js_or (a b : JsVal) : JsVal := if truthy a then a else b.

(** [`${n}`] for an integer. *)
Definition num_to_string (n : Z) : string := pretty n.

(** [`${v}`]: string conversion inside a template literal. *)
Definition to_str (v : JsVal) : string :=
  match v with
  | JUndefined => "undefined"
  | JNull => "null"
  | JBool true => "true"
  | JBool false => "false"
  | JNum n => num_to_string n
  | JStr s => s
  end.

(** [typeof v === 'string'] *)
Definition is_string (v : JsVal) : bool :=
  match v with JStr _ => true | _ => false end.

(** [`"${s}"`] *)
Definition quoted (s : string) : string :=
  String (Ascii.ascii_of_nat 34) (s +:+ String (Ascii.ascii_of_nat 34) EmptyString).

(** [s || d] on strings: the empty string is falsy. *)
Definition str_or (s d : string) : string :=
  if String.eqb s "" then d else s.

(** A plain object read by field name; an absent field reads [undefined]. *)
Abbreviation JsObject := (gmap string JsVal).

Definition field (o : JsObject) (k : string) : JsVal :=
  default JUndefined (o !! k).

(** ** Exceptions *)

(** A thrown value: an [Error] object with its [message], or any other value,
    of which only its string conversion [String(error)] is observed. *)
Inductive Thrown : Type :=
  | ErrorObj (message : string)
  | NonError (shown : string).

(** [error instanceof Error ? error.message : String(error)] *)
Definition error_message (e : Thrown) : string :=
  match e with
  | ErrorObj m => m
  | NonError s => s
  end.

(** The outcome of running a piece of code: a value, an exception, or no
    outcome within the recursion budget of the model ([Diverged]). *)
Inductive Outcome (A : Type) : Type :=
  | Ok (a : A)
  | Throw (e : Thrown)
  | Diverged.
Arguments Ok {A} a.
Arguments Throw {A} e.
Arguments Diverged {A}.

(** Computations over a state [W] that may throw. *)
Definition Comp (W A : Type) : Type := W -> Outcome A * W.

Section Monad.
Context {W : Type}.

Definition ret {A} (a : A) : Comp W A := fun w => (Ok a, w).

Definition throw {A} (e : Thrown) : Comp W A := fun w => (Throw e, w).

Definition bind {A B} (c : Comp W A) (k : A -> Comp W B) : Comp W B :=
  fun w =>
    match c w with
    | (Ok a, w') => k a w'
    | (Throw e, w') => (Throw e, w')
    | (Diverged, w') => (Diverged, w')
    end.

(** [try { body } catch (error) { handler(error) }] *)
Definition try_catch {A} (body : Comp W A) (handler : Thrown -> Comp W A)
  : Comp W A :=
  fun w =>
    match body w with
    | (Ok a, w') => (Ok a, w')
    | (Throw e, w') => handler e w'
    | (Diverged, w') => (Diverged, w')
    end.
End Monad.

Notation "'let*' x ':=' c 'in' k" := (bind c (fun x => k))
  (at level 10, x name, c at level 100, k at level 200).
Notation "'do*' c 'in' k" := (bind c (fun _ => k))
  (at level 10, c at level 100, k at level 200).

(** ** External collaborators *)

(** An awaited call on an external collaborator with state [X] settles: it
    is fulfilled with a value or rejected with a thrown value, and leaves the
    collaborator in a new state. *)
Inductive Settled (A : Type) : Type :=
  | Fulfilled (a : A)
  | Rejected (e : Thrown).
Arguments Fulfilled {A} a.
Arguments Rejected {A} e.

Definition External (X A : Type) : Type := X -> Settled A * X.

Definition settle {A} (r : Settled A) : Outcome A :=
  match r with
  | Fulfilled a => Ok a
  | Rejected e => Throw e
  end.

(** * The pull-style agent of the implementation plan *)
Module Plan.

Record AgentResult : Type := {
  success : JsVal;
  summary : JsVal;
  turns : Z;
}.

(** [AgentConfig]: every field optional. *)
Record AgentConfig : Type := {
  model_opt : option string;
  maxTurns_opt : option Z;
  timeout_opt : option Z;
}.

(** [Required<AgentConfig>] *)
Record Config : Type := {
  model : string;
  maxTurns : Z;
  timeout : Z;
}.

Definition DEFAULT_CONFIG : Config :=
  {| model := "claude-sonnet-4-20250514"; maxTurns := 15; timeout := 120000 |}.

(** [{ ...DEFAULT_CONFIG, ...config }], with the constant defaults of the
    class as first written in the plan; a field of [config] is [None] when the
    object has no such key. *)
Definition merge_config (d : Config) (config : option AgentConfig) : Config :=
  match config with
  | None => d
  | Some c =>
      {| model := default (model d) (model_opt c);
         maxTurns := default (maxTurns d) (maxTurns_opt c);
         timeout := default (timeout d) (timeout_opt c) |}
  end.

Definition SYSTEM_PROMPT : string :=
"You are a browser automation agent. You control a web browser to complete tasks.

Available tools:
- snapshot: Get the current page's interactive elements with refs (@e1, @e2, etc.)
- click: Click an element by ref (e.g., @e3)
- fill: Fill an input field by ref with a value
- type: Type text into an element (appends, doesn't clear)
- press: Press a key (Enter, Tab, etc.)
- scroll: Scroll the page (up, down, left, right)
- wait: Wait for a condition or time
- done: Signal task completion with a summary

Workflow:
1. Use snapshot to see what's on the page
2. Identify the relevant elements by their refs
3. Use click, fill, type, press to interact
4. Use snapshot again if the page changes
5. Call done with a brief summary when finished

Be efficient:
- Don't snapshot more than necessary
- Combine related actions when possible
- If something fails, try an alternative approach
- If stuck after 3 attempts, call done with success=false

Keep summaries concise - the caller only sees your final summary, not your reasoning.".

(** One entry of the tool catalogue: name, description, and the names of
    the properties of its input schema with the required ones. *)
Record Tool : Type := {
  tool_name : string;
  description : string;
  properties : list string;
  required : list string;
}.

Definition tools : list Tool :=
  [ {| tool_name := "snapshot";
       description := "Get interactive elements on the current page with refs (@e1, @e2, etc.)";
       properties := ["fullPage"]; required := [] |};
    {| tool_name := "click";
       description := "Click an element by ref or selector";
       properties := ["target"]; required := ["target"] |};
    {| tool_name := "fill";
       description := "Clear an input and fill with new value";
       properties := ["target"; "value"]; required := ["target"; "value"] |};
    {| tool_name := "type";
       description := "Type text into an element (appends to existing)";
       properties := ["target"; "text"]; required := ["target"; "text"] |};
    {| tool_name := "press";
       description := "Press a key (Enter, Tab, Escape, etc.)";
       properties := ["key"]; required := ["key"] |};
    {| tool_name := "scroll";
       description := "Scroll the page";
       properties := ["direction"; "amount"]; required := ["direction"] |};
    {| tool_name := "wait";
       description := "Wait for a condition or time";
       properties := ["ms"; "selector"]; required := [] |};
    {| tool_name := "done";
       description := "Signal task completion";
       properties := ["success"; "summary"]; required := ["success"; "summary"] |} ].

(** *** The conversation *)

Record ToolUseBlock : Type := {
  id : string;
  name : string;
  input : JsObject;
}.

Inductive ContentBlock : Type :=
  | Text (text : string)
  | ToolUse (toolUse : ToolUseBlock)
  | OtherBlock (type : string).

Record ToolResultBlockParam : Type := {
  tool_use_id : string;
  content : string;
}.

Inductive MessageParam : Type :=
  | UserText (instruction : string)
  | Assistant (blocks : list ContentBlock)
  | UserToolResults (toolResults : list ToolResultBlockParam).

Record Request : Type := {
  req_model : string;
  max_tokens : Z;
  system : string;
  req_tools : list Tool;
  messages : list MessageParam;
}.

(** [response.content] *)
Record Response : Type := { blocks_of : list ContentBlock }.

(** [content.filter(block => block.type === 'tool_use')] *)
Definition filter_tool_use (content : list ContentBlock) : list ToolUseBlock :=
  omap (fun block => match block with ToolUse t => Some t | _ => None end) content.

(** [content.find(block => block.type === 'text')], as [textBlock?.text] *)
Definition find_text (content : list ContentBlock) : option string :=
  head (omap (fun block => match block with Text t => Some t | _ => None end) content).

(** *** The collaborators *)

(** The methods of [BrowserManager] the agent calls, over a session state
    [B].  [snapshot] takes [options.interactive] and yields [result.text]. *)
Record BrowserManager (B : Type) : Type := {
  snapshot : bool -> External B string;
  click : JsVal -> External B unit;
  fill : JsVal -> JsVal -> External B unit;
  type : JsVal -> JsVal -> External B unit;
  press : JsVal -> External B unit;
  scroll : JsVal -> JsVal -> External B unit;
  waitForSelector : JsVal -> External B unit;
}.
Arguments snapshot {B}.
Arguments click {B}.
Arguments fill {B}.
Arguments type {B}.
Arguments press {B}.
Arguments scroll {B}.
Arguments waitForSelector {B}.

(** [client.messages.create] over the state [M] of the model service. *)
Record Anthropic (M : Type) : Type := {
  messages_create : Request -> External M Response;
}.
Arguments messages_create {M}.

(** What one [execute] call acts on: the borrowed browser session, the model
    service, and the number of model invocations made so far (a ghost
    counter, advanced by [create] only). *)
Record World (B M : Type) : Type := {
  browser : B;
  service : M;
  invocations : nat;
}.
Arguments browser {B M}.
Arguments service {B M}.
Arguments invocations {B M}.
Arguments Build_World {B M}.

(** *** The agent *)

Section Agent.
Context {B M : Type}.
Variable manager : BrowserManager B.
Variable client : Anthropic M.
Variable config : Config.

Local Abbreviation W := (World B M).

(** [await this.browser.<method>(...)] *)
Definition on_browser {A} (call : External B A) : Comp W A :=
  fun w =>
    let '(r, b) := call (browser w) in
    (settle r, Build_World b (service w) (invocations w)).

(** The world after one more model invocation that left the service in
    state [s]. *)
Definition invoked (w : W) (s : M) : W :=
  Build_World (browser w) s (S (invocations w)).

(** [await this.client.messages.create(request)] *)
Definition create (request : Request) : Comp W Response :=
  fun w =>
    let '(r, s) := messages_create client request (service w) in
    (settle r, invoked w s).

(** [await new Promise((resolve) => setTimeout(resolve, ms))]: the timer
    always fires; wall-clock time is not part of the state. *)
Definition sleep (ms : JsVal) : Comp W unit := ret tt.

(** The [switch (name)] inside the [try] of [executeTool]. *)
Definition executeTool_body (name : string) (args : JsObject) : Comp W string :=
  if String.eqb name "snapshot" then
    let* result := on_browser (snapshot manager (negb (truthy (field args "fullPage")))) in
    ret result
  else if String.eqb name "click" then
    do* on_browser (click manager (field args "target")) in
    ret ("Clicked " +:+ to_str (field args "target"))
  else if String.eqb name "fill" then
    do* on_browser (fill manager (field args "target") (field args "value")) in
    ret ("Filled " +:+ to_str (field args "target") +:+ " with " +:+ quoted (to_str (field args "value")))
  else if String.eqb name "type" then
    do* on_browser (type manager (field args "target") (field args "text")) in
    ret ("Typed " +:+ quoted (to_str (field args "text")) +:+ " into " +:+ to_str (field args "target"))
  else if String.eqb name "press" then
    do* on_browser (press manager (field args "key")) in
    ret ("Pressed " +:+ to_str (field args "key"))
  else if String.eqb name "scroll" then
    let amount := js_or (field args "amount") (JNum 500) in
    do* on_browser (scroll manager (field args "direction") amount) in
    ret ("Scrolled " +:+ to_str (field args "direction") +:+ " " +:+ to_str amount +:+ "px")
  else if String.eqb name "wait" then
    if truthy (field args "ms") then
      do* sleep (field args "ms") in
      ret ("Waited " +:+ to_str (field args "ms") +:+ "ms")
    else if truthy (field args "selector") then
      do* on_browser (waitForSelector manager (field args "selector")) in
      ret ("Element " +:+ to_str (field args "selector") +:+ " appeared")
    else ret "No wait condition specified"
  else ret ("Unknown tool: " +:+ name).

Definition executeTool (name : string) (input : JsObject) : Comp W string :=
  let args := input in
  try_catch (executeTool_body name args)
    (fun error =>
       let message := error_message error in
       ret ("Error: " +:+ message)).

(** How the [for (const toolUse of toolUses)] loop of one turn ends: with a
    [return] out of [execute], or by running off the end of the batch. *)
Inductive BatchExit : Type :=
  | Returned (result : AgentResult)
  | Exhausted (toolResults : list ToolResultBlockParam).

Fixpoint for_toolUses (turns : Z) (toolUses : list ToolUseBlock)
    (toolResults : list ToolResultBlockParam) : Comp W BatchExit :=
  match toolUses with
  | [] => ret (Exhausted toolResults)
  | toolUse :: rest =>
      if String.eqb (name toolUse) "done" then
        let input := input toolUse in
        ret (Returned {| success := field input "success";
                         summary := field input "summary";
                         turns := turns |})
      else
        let* result := executeTool (name toolUse) (input toolUse) in
        for_toolUses turns rest
          (toolResults ++ [ {| tool_use_id := id toolUse; content := result |} ])
  end.

(** The argument of [messages.create]: [{ model: this.config.model,
    max_tokens: 4096, system: SYSTEM_PROMPT, tools, messages }]. *)
Definition request (messages : list MessageParam) : Request :=
  {| req_model := model config; max_tokens := 4096;
     system := SYSTEM_PROMPT; req_tools := tools;
     messages := messages |}.

(** The [while (turns < this.config.maxTurns)] loop and the statement after
    it.  [fuel] bounds the number of iterations that are unfolded; running
    out of it is the outcome [Diverged], which [execute] never meets. *)
Fixpoint while_turns (fuel : nat) (turns : Z) (messages : list MessageParam)
    : Comp W AgentResult :=
  if (turns <? maxTurns config)%Z then
    match fuel with
    | O => fun w => (Diverged, w)
    | S fuel' =>
        let turns := (turns + 1)%Z in
        let* response := create (request messages) in
        let toolUses := filter_tool_use (blocks_of response) in
        if (length toolUses =? 0)%nat then
          let textBlock := find_text (blocks_of response) in
          ret {| success := JBool true;
                 summary := JStr (str_or (default "" textBlock) "Completed");
                 turns := turns |}
        else
          let* exit := for_toolUses turns toolUses [] in
          match exit with
          | Returned result => ret result
          | Exhausted toolResults =>
              while_turns fuel' turns
                (messages ++ [Assistant (blocks_of response);
                              UserToolResults toolResults])
          end
    end
  else
    ret {| success := JBool false;
           summary := JStr ("Task incomplete after " +:+ num_to_string (maxTurns config) +:+ " turns");
           turns := turns |}.

Definition execute (instruction : string) : Comp W AgentResult :=
  while_turns (Z.to_nat (maxTurns config)) 0 [UserText instruction].

End Agent.

(** *** The daemon's [do] command *)

Record DoCommand : Type := {
  instruction : JsVal;
  config : option AgentConfig;
}.

(** What the command handler answers: [{ success: false, error }], or
    [{ success: result.success, data: { summary, turns } }]. *)
Inductive CommandResponse : Type :=
  | Failure (error : string)
  | Data (result_success : JsVal) (data_summary : JsVal) (data_turns : Z).

Section Daemon.
Context {B M : Type}.
Variable manager : BrowserManager B.
Variable client : Anthropic M.

(** [case 'do':] of the command handler; [new BrowserAgent(session.browser,
    config)] merges [config] over the defaults. *)
Definition handle_do (cmd : DoCommand) : Comp (World B M) CommandResponse :=
  let instruction := instruction cmd in
  if negb (truthy instruction) || negb (is_string instruction) then
    ret (Failure "Missing instruction")
  else
    let agent_config := merge_config DEFAULT_CONFIG (config cmd) in
    try_catch
      (let* result := execute manager client agent_config (to_str instruction) in
       ret (Data (success result) (summary result) (turns result)))
      (fun error =>
         let message := error_message error in
         ret (Failure message)).

End Daemon.

(** *** Sequential dispatch *)

Section Dispatch.
Context {B M : Type}.
Variable manager : BrowserManager B.

(** Dispatching a list of tool uses one after the other, in order, and the
    observations this produces. *)
Fixpoint dispatch_in_order (toolUses : list ToolUseBlock) (w : World B M)
    : list ToolResultBlockParam * World B M :=
  match toolUses with
  | [] => ([], w)
  | toolUse :: rest =>
      match executeTool manager (name toolUse) (input toolUse) w with
      | (Ok result, w') =>
          let '(results, w'') := dispatch_in_order rest w' in
          ({| tool_use_id := id toolUse; content := result |} :: results, w'')
      | (_, w') => ([], w')
      end
  end.

End Dispatch.

(** [toolUse.name === 'done'] *)
Definition is_done (toolUse : ToolUseBlock) : bool := String.eqb (name toolUse) "done".

(** A model turn carries a terminal signal when it requests no tool at all
    (the [toolUses.length === 0] exit) or one of its tool uses is [done]. *)
Definition terminal (content : list ContentBlock) : bool :=
  match filter_tool_use content with
  | [] => true
  | toolUses => existsb is_done toolUses
  end.


Section Run.
Context {B M : Type}.
Variable manager : BrowserManager B.
Variable client : Anthropic M.
Variable config : Config.

(** The run of [execute] from the conversation [messages] in the world [w],
    followed for [n] turns: the world it reaches when, on each of these
    turns, the model service answers the request for the conversation so far
    and its answer carries no terminal signal, so that the batch is
    dispatched in order and joins the conversation after the model's turn;
    [None] as soon as the service fails or sends a terminal signal. *)
Fixpoint turns_without_signal (n : nat) (messages : list MessageParam)
    (w : World B M) : option (World B M) :=
  match n with
  | O => Some w
  | S n' =>
      match messages_create client (request config messages) (service w) with
      | (Fulfilled response, s) =>
          if terminal (blocks_of response) then None
          else
            let '(toolResults, w') :=
              dispatch_in_order manager (filter_tool_use (blocks_of response))
                (invoked w s) in
            turns_without_signal n'
              (messages ++ [Assistant (blocks_of response);
                            UserToolResults toolResults]) w'
      | (Rejected _, _) => None
      end
  end.

End Run.

End Plan.

(** * The push-style agent of [src/browser-agent.ts] *)
Module Sdk.

Record AgentResult : Type := {
  success : bool;
  summary : string;
  turns : Z;
}.

(** [Required<AgentConfig>], as held in [this.config]. *)
Record Config : Type := {
  model : string;
  maxTurns : Z;
  timeout : Z;
}.

Definition SYSTEM_PROMPT : string :=
"You are a browser automation agent. You control a web browser to complete tasks.

Available tools:
- browser_snapshot: Get the current page's interactive elements with refs (@e1, @e2, etc.)
- browser_click: Click an element by ref (e.g., @e3)
- browser_fill: Fill an input field by ref with a value
- browser_type: Type text into an element (appends, doesn't clear)
- browser_press: Press a key (Enter, Tab, etc.)
- browser_scroll: Scroll the page (up, down, left, right)
- browser_wait: Wait for a condition or time

Workflow:
1. Use browser_snapshot to see what's on the page
2. Identify the relevant elements by their refs
3. Use browser_click, browser_fill, browser_type, browser_press to interact
4. Use browser_snapshot again if the page changes
5. When finished, respond with a brief summary of what was accomplished

Be efficient:
- Don't snapshot more than necessary
- Combine related actions when possible
- If something fails, try an alternative approach
- If stuck after 3 attempts, explain what went wrong

Keep summaries concise - the caller only sees your final summary, not your reasoning.".

(** ** The tools *)

Inductive Direction : Type := up | down | left | right.

Definition direction_name (d : Direction) : string :=
  match d with
  | up => "up"
  | down => "down"
  | left => "left"
  | right => "right"
  end.

(** The schema-validated arguments of each tool. *)
Record SnapshotArgs : Type := { fullPage : option bool }.
Record ClickArgs : Type := { click_target : string }.
Record FillArgs : Type := { fill_target : string; value : string }.
Record TypeArgs : Type := { type_target : string; text : string }.
Record PressArgs : Type := { key : string }.
Record ScrollArgs : Type := { direction : Direction; amount : option Z }.
Record WaitArgs : Type := { ms : option Z; selector : option string }.

(** [{ content: [{ type: 'text', text }] }] *)
Record CallToolResult : Type := { content : list string }.

Definition text_result (text : string) : CallToolResult := {| content := [text] |}.

(** The part of [BrowserManager] and of the page it hands out that the tools
    use, over a session state [B], with locators [L] and page handles [P].
    [getSnapshot] takes [options.interactive] and yields [result.tree];
    [evaluate] takes the script text. *)
Record BrowserManager (B L P : Type) : Type := {
  getSnapshot : bool -> External B string;
  getLocator : string -> External B L;
  locator_click : L -> External B unit;
  locator_fill : L -> string -> External B unit;
  locator_pressSequentially : L -> string -> External B unit;
  getPage : External B P;
  keyboard_press : P -> string -> External B unit;
  evaluate : P -> string -> External B unit;
  waitForTimeout : P -> Z -> External B unit;
  waitForSelector : P -> string -> External B unit;
}.
Arguments getSnapshot {B L P}.
Arguments getLocator {B L P}.
Arguments locator_click {B L P}.
Arguments locator_fill {B L P}.
Arguments locator_pressSequentially {B L P}.
Arguments getPage {B L P}.
Arguments keyboard_press {B L P}.
Arguments evaluate {B L P}.
Arguments waitForTimeout {B L P}.
Arguments waitForSelector {B L P}.

(** Truthiness of an optional number and of an optional string. *)
Definition truthy_number (n : option Z) : bool :=
  match n with
  | Some n => negb (n =? 0)%Z
  | None => false
  end.

Definition truthy_string (s : option string) : bool :=
  match s with
  | Some s => negb (String.eqb s "")
  | None => false
  end.

(** [args.amount || 500]: an absent amount and the number 0 are both falsy. *)
Definition amount_or_default (amount : option Z) : Z :=
  match amount with
  | Some a => if (a =? 0)%Z then 500%Z else a
  | None => 500%Z
  end.

(** The [switch (args.direction)] of the scroll tool: [(deltaX, deltaY)]. *)
Definition scroll_delta (d : Direction) (amount : Z) : Z * Z :=
  let deltaX := 0%Z in
  let deltaY := 0%Z in
  match d with
  | up => (deltaX, (- amount)%Z)
  | down => (deltaX, amount)
  | left => ((- amount)%Z, deltaY)
  | right => (amount, deltaY)
  end.

(** [`window.scrollBy(${deltaX}, ${deltaY})`] *)
Definition scrollBy_script (delta : Z * Z) : string :=
  "window.scrollBy(" +:+ num_to_string (fst delta) +:+ ", "
    +:+ num_to_string (snd delta) +:+ ")".

(** Modelled from the spec: [BrowserManager.getSnapshot] is defined in
    [./browser.js], which is not among the sources.  The specification gives
    it as [getSnapshot(options: {interactive: bool}) -> {tree: string}], the
    fetch of the element tree of the current page: what it returns is
    determined by the page [page_of session] the session shows and by the
    option, whatever else the call changes in the session. *)
Definition reads_page {B Page : Type} (page_of : B -> Page)
    (tree_of : bool -> Page -> Settled string)
    (getSnapshot : bool -> External B string) : Prop :=
  forall interactive session,
    fst (getSnapshot interactive session) = tree_of interactive (page_of session).

Section Tools.
Context {B L P : Type}.
Variable browser : BrowserManager B L P.

Definition await {A} (call : External B A) : Comp B A :=
  fun b => let '(r, b') := call b in (settle r, b').

Definition browser_snapshot (args : SnapshotArgs) : Comp B CallToolResult :=
  let* tree := await (getSnapshot browser (negb (default false (fullPage args)))) in
  ret (text_result tree).

Definition browser_click (args : ClickArgs) : Comp B CallToolResult :=
  let* locator := await (getLocator browser (click_target args)) in
  do* await (locator_click browser locator) in
  ret (text_result ("Clicked " +:+ click_target args)).

Definition browser_fill (args : FillArgs) : Comp B CallToolResult :=
  let* locator := await (getLocator browser (fill_target args)) in
  do* await (locator_fill browser locator (value args)) in
  ret (text_result ("Filled " +:+ fill_target args +:+ " with " +:+ quoted (value args))).

Definition browser_type (args : TypeArgs) : Comp B CallToolResult :=
  let* locator := await (getLocator browser (type_target args)) in
  do* await (locator_pressSequentially browser locator (text args)) in
  ret (text_result ("Typed " +:+ quoted (text args) +:+ " into " +:+ type_target args)).

Definition browser_press (args : PressArgs) : Comp B CallToolResult :=
  let* page := await (getPage browser) in
  do* await (keyboard_press browser page (key args)) in
  ret (text_result ("Pressed " +:+ key args)).

Definition browser_scroll (args : ScrollArgs) : Comp B CallToolResult :=
  let* page := await (getPage browser) in
  let amount := amount_or_default (amount args) in
  let delta := scroll_delta (direction args) amount in
  do* await (evaluate browser page (scrollBy_script delta)) in
  ret (text_result ("Scrolled " +:+ direction_name (direction args) +:+ " "
                      +:+ num_to_string amount +:+ "px")).

Definition browser_wait (args : WaitArgs) : Comp B CallToolResult :=
  let* page := await (getPage browser) in
  if truthy_number (ms args) then
    let ms := default 0%Z (ms args) in
    do* await (waitForTimeout browser page ms) in
    ret (text_result ("Waited " +:+ num_to_string ms +:+ "ms"))
  else if truthy_string (selector args) then
    let selector := default "" (selector args) in
    do* await (waitForSelector browser page selector) in
    ret (text_result ("Element " +:+ selector +:+ " appeared"))
  else ret (text_result "No wait condition specified").

End Tools.

(** ** The message stream *)

(** A block of [message.message.content]: its [type] and optional [text]. *)
Record ContentBlock : Type := {
  block_type : string;
  block_text : option string;
}.

Inductive SDKMessage : Type :=
  | AssistantMessage (blocks : list ContentBlock)
  | ResultSuccess (result : string) (num_turns : Z)
  | ResultFailure (subtype : string) (errors : option (list string)) (num_turns : Z)
  | OtherMessage (type : string).

(** What iterating the query yields over its lifetime: messages, then the end
    of the stream or an exception.  An exception thrown by the call of
    [query] itself is a stream that raises at once; a stream that never ends
    is not represented. *)
Inductive Stream : Type :=
  | EndOfStream
  | Raise (error : Thrown)
  | Yield (message : SDKMessage) (rest : Stream).

Record QueryOptions : Type := {
  systemPrompt : string;
  opt_model : string;
  opt_maxTurns : Z;
  mcpServers : list (string * list string);
  permissionMode : string;
  allowDangerouslySkipPermissions : bool;
}.

Record QueryParams : Type := {
  prompt : string;
  options : QueryOptions;
}.

(** The agent SDK over the state [Q] of the model service behind it. *)
Record AgentSdk (Q : Type) : Type := {
  query : QueryParams -> Q -> Stream * Q;
}.
Arguments query {Q}.

(** The names under which [createBrowserTools] registers the handlers. *)
Definition browserTools : list string :=
  ["browser_snapshot"; "browser_click"; "browser_fill"; "browser_type";
   "browser_press"; "browser_scroll"; "browser_wait"].

(** The state of one [execute] call: the model service, the number of
    queries issued on it (a ghost counter), and the local variables [turns]
    and [lastAssistantMessage]. *)
Record Frame (Q : Type) : Type := {
  sdk_state : Q;
  queries : nat;
  var_turns : Z;
  var_lastAssistantMessage : string;
}.
Arguments sdk_state {Q}.
Arguments queries {Q}.
Arguments var_turns {Q}.
Arguments var_lastAssistantMessage {Q}.
Arguments Build_Frame {Q}.

(** [content.filter(block => block.type === 'text')] *)
Definition text_blocks (content : list ContentBlock) : list ContentBlock :=
  filter (fun block => block_type block = "text") content.

(** [strings.join(separator)] *)
Fixpoint join (separator : string) (strings : list string) : string :=
  match strings with
  | [] => ""
  | [s] => s
  | s :: rest => s +:+ separator +:+ join separator rest
  end.

(** [message.type === 'assistant'] and [message.type === 'result'] *)
Definition is_assistant (message : SDKMessage) : bool :=
  match message with AssistantMessage _ => true | _ => false end.

Definition is_result (message : SDKMessage) : bool :=
  match message with ResultSuccess _ _ | ResultFailure _ _ _ => true | _ => false end.

(** The stream that yields [messages] and then goes on as [ending]. *)
Definition stream_of (messages : list SDKMessage) (ending : Stream) : Stream :=
  foldr Yield ending messages.

(** A stream honours the turn budget [n], [seen] assistant messages into it,
    when it carries at most [n] assistant messages up to its first result
    message, and that result message reports between 0 and [n] turns. *)
Fixpoint honours_budget (n seen : Z) (stream : Stream) : bool :=
  match stream with
  | EndOfStream | Raise _ => (seen <=? n)%Z
  | Yield (AssistantMessage _) rest => honours_budget n (seen + 1)%Z rest
  | Yield (ResultSuccess _ num_turns) _
  | Yield (ResultFailure _ _ num_turns) _ => (0 <=? num_turns)%Z && (num_turns <=? n)%Z
  | Yield (OtherMessage _) rest => honours_budget n seen rest
  end.

Section Execute.
Context {Q : Type}.
Variable sdk : AgentSdk Q.
Variable config : Config.

(** [const result = query({ prompt, options })] *)
Definition start_query (params : QueryParams) : Comp (Frame Q) Stream :=
  fun f =>
    let '(stream, q) := query sdk params (sdk_state f) in
    (Ok stream,
     Build_Frame q (S (queries f)) (var_turns f) (var_lastAssistantMessage f)).

Definition get_turns : Comp (Frame Q) Z := fun f => (Ok (var_turns f), f).

Definition get_lastAssistantMessage : Comp (Frame Q) string :=
  fun f => (Ok (var_lastAssistantMessage f), f).

(** [turns++] *)
Definition increment_turns : Comp (Frame Q) unit :=
  fun f =>
    (Ok tt,
     Build_Frame (sdk_state f) (queries f) (var_turns f + 1)%Z
       (var_lastAssistantMessage f)).

Definition set_lastAssistantMessage (s : string) : Comp (Frame Q) unit :=
  fun f => (Ok tt, Build_Frame (sdk_state f) (queries f) (var_turns f) s).

(** [for await (const message of result) { ... }] followed by the [return]
    after the loop. *)
Fixpoint for_await (stream : Stream) : Comp (Frame Q) AgentResult :=
  match stream with
  | Yield message rest =>
      match message with
      | AssistantMessage content =>
          do* increment_turns in
          let textBlocks := text_blocks content in
          do* (if (0 <? length textBlocks)%nat then
                 set_lastAssistantMessage
                   (join (String (Ascii.ascii_of_nat 10) EmptyString)
                      (map (fun b => default "" (block_text b)) textBlocks))
               else ret tt) in
          for_await rest
      | ResultSuccess result num_turns =>
          let* lastAssistantMessage := get_lastAssistantMessage in
          ret {| success := true;
                 summary := str_or result (str_or lastAssistantMessage "Completed");
                 turns := num_turns |}
      | ResultFailure _ errors num_turns =>
          let errorMsg :=
            match errors with
            | Some errors => join ", " errors
            | None => "Unknown error"
            end in
          ret {| success := false; summary := errorMsg; turns := num_turns |}
      | OtherMessage _ => for_await rest
      end
  | Raise error => throw error
  | EndOfStream =>
      let* lastAssistantMessage := get_lastAssistantMessage in
      let* turns := get_turns in
      ret {| success := true;
             summary := str_or lastAssistantMessage "Completed";
             turns := turns |}
  end.

(** The argument of [query]: the prompt and the options. *)
Definition query_params (instruction : string) : QueryParams :=
  {| prompt := instruction;
     options :=
       {| systemPrompt := SYSTEM_PROMPT;
          opt_model := model config;
          opt_maxTurns := maxTurns config;
          mcpServers := [("browser-tools", browserTools)];
          permissionMode := "bypassPermissions";
          allowDangerouslySkipPermissions := true |} |}.

Definition execute_in_frame (instruction : string) : Comp (Frame Q) AgentResult :=
  try_catch
    (let* result := start_query (query_params instruction) in
     for_await result)
    (fun error =>
       let message := error_message error in
       let* turns := get_turns in
       ret {| success := false; summary := "Error: " +:+ message; turns := turns |}).

(** [execute]: [createBrowserTools] and [createSdkMcpServer] only build the
    tool registry handed to the query; the locals start as [turns = 0] and
    [lastAssistantMessage = '']. *)
Definition execute (instruction : string) (w : Q * nat)
    : Outcome AgentResult * (Q * nat) :=
  let '(r, f) := execute_in_frame instruction (Build_Frame (fst w) (snd w) 0%Z "") in
  (r, (sdk_state f, queries f)).

End Execute.

End Sdk.

(** * Concrete collaborators

    Small executable sessions and services, used to run the agents on
    concrete conversations. *)
Module Scenarios.

(** A browser session that records the calls it receives.  The reference
    [@bad] resolves to no element; every other call succeeds. *)
Definition unresolved (target : JsVal) : bool :=
  match target with
  | JStr s => String.eqb s "@bad"
  | _ => false
  end.

Definition act (call : string) (target : JsVal) : External (list string) unit :=
  fun log =>
    if unresolved target
    then (Rejected (ErrorObj ("No element matches " +:+ to_str target)), log)
    else (Fulfilled tt, log ++ [call]).

Definition recorder : Plan.BrowserManager (list string) :=
  {| Plan.snapshot := fun interactive log =>
       (Fulfilled (if interactive then "- button Submit [ref=e1]"
                   else "- heading Welcome - button Submit [ref=e1]"),
        log ++ ["snapshot"]);
     Plan.click := fun target => act ("click " +:+ to_str target) target;
     Plan.fill := fun target value =>
       act ("fill " +:+ to_str target +:+ " " +:+ to_str value) target;
     Plan.type := fun target text =>
       act ("type " +:+ to_str target +:+ " " +:+ to_str text) target;
     Plan.press := fun key => act ("press " +:+ to_str key) key;
     Plan.scroll := fun direction amount =>
       act ("scroll " +:+ to_str direction +:+ " " +:+ to_str amount) direction;
     Plan.waitForSelector := fun selector =>
       act ("waitForSelector " +:+ to_str selector) selector |}.

(** A model service that answers from a script, one response per call, and
    fails once the script is used up. *)
Definition scripted : Plan.Anthropic (list Plan.Response) :=
  {| Plan.messages_create := fun _ script =>
       match script with
       | response :: rest => (Fulfilled response, rest)
       | [] => (Rejected (ErrorObj "Connection error."), [])
       end |}.

(** A model service that asks for a snapshot on every turn. *)
Definition snapshot_request : Plan.ContentBlock :=
  Plan.ToolUse {| Plan.id := "toolu_1"; Plan.name := "snapshot"; Plan.input := ∅ |}.

Definition insistent : Plan.Anthropic unit :=
  {| Plan.messages_create := fun _ s =>
       (Fulfilled {| Plan.blocks_of := [snapshot_request] |}, s) |}.

Definition tool_use (id name : string) (input : list (string * JsVal)) : Plan.ContentBlock :=
  Plan.ToolUse {| Plan.id := id; Plan.name := name; Plan.input := list_to_map input |}.

Definition start {M} (service : M) : Plan.World (list string) M :=
  {| Plan.browser := []; Plan.service := service; Plan.invocations := 0 |}.

Definition budget (n : Z) : Plan.Config :=
  {| Plan.model := Plan.model Plan.DEFAULT_CONFIG; Plan.maxTurns := n;
     Plan.timeout := Plan.timeout Plan.DEFAULT_CONFIG |}.

(** The session behind the SDK tools: locators are the targets themselves,
    the page handle is a unit, and the state is the log of calls.  A snapshot
    reads the page and leaves the log alone. *)
Definition resolve (target : string) : External (list string) string :=
  fun log =>
    if String.eqb target "@bad"
    then (Rejected (ErrorObj ("No element matches " +:+ target)), log)
    else (Fulfilled target, log).

Definition logged (call : string) : External (list string) unit :=
  fun log => (Fulfilled tt, log ++ [call]).

Definition page_recorder : Sdk.BrowserManager (list string) string unit :=
  {| Sdk.getSnapshot := fun interactive log =>
       (Fulfilled (if interactive then "- button Submit [ref=e1]"
                   else "- heading Welcome - button Submit [ref=e1]"), log);
     Sdk.getLocator := resolve;
     Sdk.locator_click := fun locator => logged ("click " +:+ locator);
     Sdk.locator_fill := fun locator value => logged ("fill " +:+ locator +:+ " " +:+ value);
     Sdk.locator_pressSequentially := fun locator text =>
       logged ("pressSequentially " +:+ locator +:+ " " +:+ text);
     Sdk.getPage := fun log => (Fulfilled tt, log);
     Sdk.keyboard_press := fun _ key => logged ("press " +:+ key);
     Sdk.evaluate := fun _ script => logged ("evaluate " +:+ script);
     Sdk.waitForTimeout := fun _ ms => logged ("waitForTimeout " +:+ num_to_string ms);
     Sdk.waitForSelector := fun _ selector => logged ("waitForSelector " +:+ selector) |}.

(** An SDK whose query replays the stream held in its state. *)
Definition replay : Sdk.AgentSdk Sdk.Stream :=
  {| Sdk.query := fun _ stream => (stream, stream) |}.

Definition sdk_config : Sdk.Config :=
  {| Sdk.model := "sonnet"; Sdk.maxTurns := 15; Sdk.timeout := 120000 |}.

(** A session with a page title and a count of the snapshots taken; a
    snapshot renders the title and advances the count. *)
Definition render (interactive : bool) (title : string) : Settled string :=
  Fulfilled (if interactive then "- button Submit [ref=e1]"
             else "- heading " +:+ title +:+ " - button Submit [ref=e1]").

Definition idle {A} (a : A) : External (string * nat) A := fun session => (Fulfilled a, session).

Definition titled : Sdk.BrowserManager (string * nat) string unit :=
  {| Sdk.getSnapshot := fun interactive session =>
       (render interactive (fst session), (fst session, S (snd session)));
     Sdk.getLocator := fun target => idle target;
     Sdk.locator_click := fun _ => idle tt;
     Sdk.locator_fill := fun _ _ => idle tt;
     Sdk.locator_pressSequentially := fun _ _ => idle tt;
     Sdk.getPage := idle tt;
     Sdk.keyboard_press := fun _ _ => idle tt;
     Sdk.evaluate := fun _ _ => idle tt;
     Sdk.waitForTimeout := fun _ _ => idle tt;
     Sdk.waitForSelector := fun _ _ => idle tt |}.

(** Conversations. *)
Definition click_e1 : Plan.ToolUseBlock :=
  {| Plan.id := "toolu_1"; Plan.name := "click";
     Plan.input := list_to_map [("target", JStr "@e1")] |}.

Definition done_clicked : Plan.ToolUseBlock :=
  {| Plan.id := "toolu_2"; Plan.name := "done";
     Plan.input := list_to_map [("success", JBool true);
                                ("summary", JStr "Clicked the button")] |}.

Definition press_enter : Plan.ToolUseBlock :=
  {| Plan.id := "toolu_3"; Plan.name := "press";
     Plan.input := list_to_map [("key", JStr "Enter")] |}.

Definition fill_bad : Plan.ToolUseBlock :=
  {| Plan.id := "toolu_1"; Plan.name := "fill";
     Plan.input := list_to_map [("target", JStr "@bad"); ("value", JStr "x")] |}.

(** One turn that clicks, signals [done] and asks for a key press. *)
Definition click_done_press : Plan.Response :=
  {| Plan.blocks_of := [Plan.ToolUse click_e1; Plan.ToolUse done_clicked;
                        Plan.ToolUse press_enter] |}.

(** A click on one turn, [done] on the next. *)
Definition click_then_done : list Plan.Response :=
  [ {| Plan.blocks_of := [Plan.ToolUse click_e1] |};
    {| Plan.blocks_of := [Plan.ToolUse done_clicked] |} ].


Definition plain_answer : Plan.Response :=
  {| Plan.blocks_of := [Plan.Text "Nothing to do"] |}.

(** A stream that fails after one assistant message. *)
Definition looking : Sdk.SDKMessage :=
  Sdk.AssistantMessage
    [ {| Sdk.block_type := "text"; Sdk.block_text := Some "Looking at the page" |} ].


Definition answered : Sdk.Stream :=
  Sdk.Yield (Sdk.ResultSuccess "Nothing to do" 1) Sdk.EndOfStream.

(** Three turns that ask for a snapshot, then a [done] that a fourth turn
    would bring. *)
Definition snapshot_turn : Plan.Response := {| Plan.blocks_of := [snapshot_request] |}.

Definition snapshots_then_done : list Plan.Response :=
  [snapshot_turn; snapshot_turn; snapshot_turn;
   {| Plan.blocks_of := [Plan.ToolUse done_clicked] |}].



End Scenarios.

(** * Observing the conversation *)
Module Transcript.
Import Plan.

(** One exchange with the model service: the request, what the service
    answered, and the state the answer left the service in. *)
Abbreviation Exchange M := (Request * Settled Response * M)%type.

(** A model service that also keeps its exchanges, in order. *)
Definition recording {M : Type} (client : Anthropic M)
    : Anthropic (M * list (Exchange M)) :=
  {| messages_create := fun request state =>
       let '(r, s) := messages_create client request (fst state) in
       (r, (s, snd state ++ [(request, r, s)])) |}.

Section Grows.
Context {B M : Type}.
Variable manager : BrowserManager B.

(** The exchanges are those of a conversation that starts as [conversation]
    in the world [w].  Each request carries the conversation so far.  An
    exchange that is followed by another one was answered without terminal
    signal, and the next request carries the same conversation with, at its
    end, the blocks of that answer as the model's turn and then the tool
    results obtained by dispatching, in order, the tool uses of that answer in
    the world the answer was received in. *)
Fixpoint grows (conversation : list MessageParam)
    (w : World B (M * list (Exchange M))) (exchanges : list (Exchange M)) : Prop :=
  match exchanges with
  | [] => True
  | (request, answer, s) :: later =>
      messages request = conversation
      /\ match later with
         | [] => True
         | _ :: _ =>
             exists response,
               answer = Fulfilled response
               /\ terminal (blocks_of response) = false
               /\ let '(toolResults, w') :=
                    dispatch_in_order manager (filter_tool_use (blocks_of response))
                      (invoked w (s, snd (service w) ++ [(request, answer, s)])) in
                  grows (conversation ++ [Assistant (blocks_of response);
                                          UserToolResults toolResults]) w' later
         end
  end.

End Grows.

(** What every request of one call has in common. *)
Definition standing (config : Config) (request : Request) : Prop :=
  req_model request = model config /\ max_tokens request = 4096%Z
  /\ system request = SYSTEM_PROMPT /\ req_tools request = tools.

(** A model service that answers from a script and, once the script is used
    up, with a closing text: it answers every request. *)
Definition patient : Anthropic (list Response) :=
  {| messages_create := fun _ script =>
       match script with
       | response :: rest => (Fulfilled response, rest)
       | [] => (Fulfilled {| blocks_of := [Text "Giving up"] |}, [])
       end |}.

(** A turn with a [fill] that the session rejects, followed by a key press. *)
Definition fill_then_press : Response :=
  {| blocks_of := [ToolUse Scenarios.fill_bad; ToolUse Scenarios.press_enter] |}.

End Transcript.

(** * Observing the message stream *)
Module Streams.
Import Sdk.

(** A message that leaves [lastAssistantMessage] as it is: an assistant
    message without text block, or a message that is neither an assistant
    nor a result message. *)
Definition silent (message : SDKMessage) : bool :=
  match message with
  | AssistantMessage content => bool_decide (text_blocks content = [])
  | OtherMessage _ => true
  | ResultSuccess _ _ | ResultFailure _ _ _ => false
  end.

(** The text an assistant message leaves in [lastAssistantMessage]. *)
Definition spoken (content : list ContentBlock) : string :=
  join (String (Ascii.ascii_of_nat 10) EmptyString)
    (map (fun b => default "" (block_text b)) (text_blocks content)).

Definition says (text : string) : SDKMessage :=
  AssistantMessage [ {| block_type := "text"; block_text := Some text |} ].

Definition calls_tool : SDKMessage :=
  AssistantMessage [ {| block_type := "tool_use"; block_text := None |} ].

End Streams.

(** * The two dispatchers side by side *)
Module Vocabulary.
Import Sdk.

(** A call of one of the tools registered by [createBrowserTools], with its
    validated arguments. *)
Inductive ToolCall : Type :=
  | Snapshot (args : SnapshotArgs)
  | Click (args : ClickArgs)
  | Fill (args : FillArgs)
  | TypeText (args : TypeArgs)
  | Press (args : PressArgs)
  | Scroll (args : ScrollArgs)
  | Wait (args : WaitArgs).

(** The handler registered for the call. *)
Definition handler {B L P : Type} (browser : BrowserManager B L P) (call : ToolCall)
    : Comp B CallToolResult :=
  match call with
  | Snapshot args => browser_snapshot browser args
  | Click args => browser_click browser args
  | Fill args => browser_fill browser args
  | TypeText args => browser_type browser args
  | Press args => browser_press browser args
  | Scroll args => browser_scroll browser args
  | Wait args => browser_wait browser args
  end.

(** The name of the same tool in the plan's catalogue. *)
Definition plan_name (call : ToolCall) : string :=
  match call with
  | Snapshot _ => "snapshot"
  | Click _ => "click"
  | Fill _ => "fill"
  | TypeText _ => "type"
  | Press _ => "press"
  | Scroll _ => "scroll"
  | Wait _ => "wait"
  end.

(** An optional field of an input object: present with its value, or left
    out. *)
Definition with_field (k : string) (v : option JsVal) (o : JsObject) : JsObject :=
  match v with
  | Some v => <[k := v]> o
  | None => o
  end.

(** The arguments of the call as the input object of a tool use. *)
Definition plan_input (call : ToolCall) : JsObject :=
  match call with
  | Snapshot args => with_field "fullPage" (JBool <$> fullPage args) ∅
  | Click args => <["target" := JStr (click_target args)]> ∅
  | Fill args =>
      <["target" := JStr (fill_target args)]> (<["value" := JStr (value args)]> ∅)
  | TypeText args =>
      <["target" := JStr (type_target args)]> (<["text" := JStr (text args)]> ∅)
  | Press args => <["key" := JStr (key args)]> ∅
  | Scroll args =>
      <["direction" := JStr (direction_name (direction args))]>
        (with_field "amount" (JNum <$> amount args) ∅)
  | Wait args =>
      with_field "ms" (JNum <$> ms args)
        (with_field "selector" (JStr <$> selector args) ∅)
  end.

(** [true] for the snapshot tool, whose observation is the tree the session
    returns. *)
Definition is_snapshot (call : ToolCall) : bool :=
  match call with Snapshot _ => true | _ => false end.

End Vocabulary.

(** * Properties of the plan's agent *)
Module PlanFacts.
Import Plan.

Section Facts.
Context {B M : Type}.
Variable manager : BrowserManager B.
Variable client : Anthropic M.

Local Abbreviation W := (World B M).

(** A browser call leaves the model service and the invocation count alone,
    and settles. *)
Lemma on_browser_frame {A} (call : External B A) (w w' : W) (o : Outcome A) :
  on_browser call w = (o, w') ->
  service w' = service w /\ invocations w' = invocations w /\ o <> Diverged.
Proof.
  unfold on_browser. destruct (call (browser w)) as [r b].
  intros [= <- <-]. simpl. repeat split. destruct r; discriminate.
Qed.

Lemma executeTool_body_frame (name : string) (args : JsObject) (w w' : W)
    (o : Outcome string) :
  executeTool_body manager name args w = (o, w') ->
  service w' = service w /\ invocations w' = invocations w /\ o <> Diverged.
Proof.
  unfold executeTool_body, bind, sleep, ret.
  repeat match goal with
  | |- context [if ?c then _ else _] => destruct c
  end.
  all: try (intros [= <- <-]; repeat split; discriminate).
  all: match goal with
       | |- context [on_browser ?c ?w0] =>
           destruct (on_browser c w0) as [o1 w1] eqn:E;
           apply on_browser_frame in E as (? & ? & ?);
           destruct o1; intros [= <- <-]; repeat split; congruence
       end.
Qed.

(** [executeTool] always resolves to a string, and acts on the browser
    session only. *)
Lemma executeTool_settles (name : string) (input : JsObject) (w : W) :
  exists text w',
    executeTool manager name input w = (Ok text, w')
    /\ service w' = service w /\ invocations w' = invocations w.
Proof.
  unfold executeTool, try_catch.
  destruct (executeTool_body manager name input w) as [o w'] eqn:E.
  apply executeTool_body_frame in E as (Hs & Hi & Hd).
  destruct o; [eauto | unfold ret; eauto | congruence].
Qed.

(** A batch settles: it ends by a [return] that carries the current turn
    count, or runs off its end; either way only the browser session is acted
    upon. *)
Lemma for_toolUses_settles (turns : Z) (toolUses : list ToolUseBlock) :
  forall (acc : list ToolResultBlockParam) (w : W),
  exists exit w',
    for_toolUses manager turns toolUses acc w = (Ok exit, w')
    /\ service w' = service w /\ invocations w' = invocations w
    /\ (forall r, exit = Returned r -> Plan.turns r = turns).
Proof.
  induction toolUses as [|toolUse rest IH]; intros acc w; simpl.
  - exists (Exhausted acc), w. repeat split. discriminate.
  - destruct (String.eqb (name toolUse) "done").
    + eexists _, w. repeat split. intros r [= <-]. reflexivity.
    + unfold bind.
      destruct (executeTool_settles (name toolUse) (input toolUse) w)
        as (text & w1 & -> & Hs & Hi).
      destruct (IH (acc ++ [{| tool_use_id := id toolUse; content := text |}]) w1)
        as (exit & w2 & -> & Hs2 & Hi2 & Hr).
      exists exit, w2. repeat split; congruence || assumption.
Qed.

(** Without a [done] in it, a batch is dispatched in order to its end. *)
Lemma for_toolUses_no_done (turns : Z) (toolUses : list ToolUseBlock) :
  Forall (fun toolUse => is_done toolUse = false) toolUses ->
  forall (acc : list ToolResultBlockParam) (w : W),
    for_toolUses manager turns toolUses acc w
    = (Ok (Exhausted (acc ++ fst (dispatch_in_order manager toolUses w))),
       snd (dispatch_in_order manager toolUses w)).
Proof.
  induction 1 as [|toolUse rest Hd _ IH]; intros acc w; simpl.
  - by rewrite app_nil_r.
  - unfold is_done in Hd. rewrite Hd. unfold bind.
    destruct (executeTool_settles (name toolUse) (input toolUse) w)
      as (text & w1 & -> & _).
    rewrite IH. destruct (dispatch_in_order manager rest w1) as [results w2].
    simpl. by rewrite <- app_assoc.
Qed.

(** Up to the first [done], a batch is dispatched in order; the [done] ends
    [execute] with its own [success] and [summary], and what follows it in
    the batch is not looked at. *)
Lemma for_toolUses_done (turns : Z) (before after : list ToolUseBlock)
    (done : ToolUseBlock) :
  Forall (fun toolUse => is_done toolUse = false) before ->
  is_done done = true ->
  forall (acc : list ToolResultBlockParam) (w : W),
    for_toolUses manager turns (before ++ done :: after) acc w
    = (Ok (Returned {| success := field (input done) "success";
                       summary := field (input done) "summary";
                       turns := turns |}),
       snd (dispatch_in_order manager before w)).
Proof.
  intros Hbefore Hdone. induction Hbefore as [|toolUse rest Hd _ IH]; intros acc w; simpl.
  - unfold is_done in Hdone. by rewrite Hdone.
  - unfold is_done in Hd. rewrite Hd. unfold bind.
    destruct (executeTool_settles (name toolUse) (input toolUse) w)
      as (text & w1 & -> & _).
    rewrite IH. by destruct (dispatch_in_order manager rest w1).
Qed.

(** Dispatching in order yields one observation per tool use, correlated by
    identifier, and leaves the model service alone. *)
Lemma dispatch_in_order_frame (toolUses : list ToolUseBlock) :
  forall w : W,
    map tool_use_id (fst (dispatch_in_order manager toolUses w)) = map id toolUses
    /\ service (snd (dispatch_in_order manager toolUses w)) = service w
    /\ invocations (snd (dispatch_in_order manager toolUses w)) = invocations w.
Proof.
  induction toolUses as [|toolUse rest IH]; intros w; simpl; [done|].
  destruct (executeTool_settles (name toolUse) (input toolUse) w)
    as (text & w1 & -> & Hs & Hi).
  destruct (IH w1) as (Hids & Hs' & Hi').
  destruct (dispatch_in_order manager rest w1) as [results w2]; simpl in *.
  repeat split; congruence.
Qed.

Lemma no_done_Forall (toolUses : list ToolUseBlock) :
  existsb is_done toolUses = false ->
  Forall (fun toolUse => is_done toolUse = false) toolUses.
Proof.
  induction toolUses as [|toolUse rest IH]; simpl; [constructor|].
  intros [H1 H2]%orb_false_elim. constructor; auto.
Qed.



Section Loop.
Variable config : Config.

(** The statement after the loop: the budget is spent. *)
Lemma while_turns_spent (fuel : nat) (turns : Z) (msgs : list MessageParam) (w : W) :
  (maxTurns config <= turns)%Z ->
  while_turns manager client config fuel turns msgs w
  = (Ok {| success := JBool false;
           summary := JStr ("Task incomplete after "
                            +:+ num_to_string (maxTurns config) +:+ " turns");
           turns := turns |}, w).
Proof.
  intros H. destruct fuel; simpl;
    (destruct (Z.ltb_spec turns (maxTurns config)); [lia | reflexivity]).
Qed.

(** A failure of the model service leaves [execute] as an exception. *)
Lemma while_turns_rejected (fuel : nat) (turns : Z) (msgs : list MessageParam)
    (w : W) (e : Thrown) (s : M) :
  (turns < maxTurns config)%Z ->
  messages_create client (request config msgs) (service w) = (Rejected e, s) ->
  while_turns manager client config (S fuel) turns msgs w = (Throw e, invoked w s).
Proof.
  intros Hlt Hcreate. simpl.
  destruct (Z.ltb_spec turns (maxTurns config)); [|lia].
  unfold bind, create. by rewrite Hcreate.
Qed.

(** A turn whose batch holds no [done] is dispatched in order to its end,
    whatever its actions answer, and the loop goes on to test its condition
    again with the model's turn and the observations appended. *)
Lemma while_turns_continue (fuel : nat) (turns : Z) (msgs : list MessageParam)
    (w : W) (response : Response) (s : M) :
  (turns < maxTurns config)%Z ->
  messages_create client (request config msgs) (service w) = (Fulfilled response, s) ->
  terminal (blocks_of response) = false ->
  while_turns manager client config (S fuel) turns msgs w
  = let toolUses := filter_tool_use (blocks_of response) in
    let '(toolResults, w') := dispatch_in_order manager toolUses (invoked w s) in
    while_turns manager client config fuel (turns + 1)%Z
      (msgs ++ [Assistant (blocks_of response); UserToolResults toolResults]) w'.
Proof.
  intros Hlt Hcreate Hterm. simpl.
  destruct (Z.ltb_spec turns (maxTurns config)); [|lia].
  unfold bind, create. rewrite Hcreate. simpl.
  unfold terminal in Hterm.
  destruct (filter_tool_use (blocks_of response)) as [|toolUse rest] eqn:E; [done|].
  simpl (length _ =? 0)%nat. cbv beta iota. fold (invoked w s).
  rewrite (for_toolUses_no_done _ _ (no_done_Forall _ Hterm)).
  by destruct (dispatch_in_order manager (toolUse :: rest) (invoked w s)).
Qed.

(** The result of the loop: it terminates within [maxTurns - turns]
    iterations, and the turn count it reports lies between the count it
    started from and the budget. *)
Lemma while_turns_result (fuel : nat) :
  forall (turns : Z) (msgs : list MessageParam) (w : W),
    (turns <= maxTurns config)%Z ->
    (maxTurns config - turns <= Z.of_nat fuel)%Z ->
    match fst (while_turns manager client config fuel turns msgs w) with
    | Ok r => (turns <= Plan.turns r <= maxTurns config)%Z
    | Throw _ => True
    | Diverged => False
    end.
Proof.
  induction fuel as [|fuel IH]; intros turns msgs w Hle Hfuel.
  - rewrite while_turns_spent by lia. simpl. lia.
  - destruct (Z.ltb_spec turns (maxTurns config)) as [Hlt|Hge];
      [|rewrite while_turns_spent by lia; simpl; lia].
    destruct (messages_create client (request config msgs) (service w))
      as [[response|e] s] eqn:Hcreate;
      [|by rewrite (while_turns_rejected _ _ _ _ _ _ Hlt Hcreate)].
    destruct (terminal (blocks_of response)) eqn:Hterm.
    + simpl. destruct (Z.ltb_spec turns (maxTurns config)); [|lia].
      unfold bind, create. rewrite Hcreate. simpl.
      destruct (length (filter_tool_use (blocks_of response)) =? 0)%nat; [simpl; lia|].
      cbv beta. fold (invoked w s).
      destruct (for_toolUses_settles (turns + 1)
                  (filter_tool_use (blocks_of response)) [] (invoked w s))
        as (exit & w' & Hrun & _ & _ & Hr).
      rewrite Hrun. destruct exit as [r|toolResults]; simpl.
      * rewrite (Hr r eq_refl). lia.
      * specialize (IH (turns + 1)%Z
          (msgs ++ [Assistant (blocks_of response); UserToolResults toolResults]) w').
        destruct (fst _); [|done|]; lia.
    + rewrite (while_turns_continue _ _ _ _ _ _ Hlt Hcreate Hterm). simpl.
      destruct (dispatch_in_order _ _ _) as [toolResults w'].
      specialize (IH (turns + 1)%Z
        (msgs ++ [Assistant (blocks_of response); UserToolResults toolResults]) w').
      destruct (fst _); [|done|]; lia.
Qed.

(** Against a model that never sends a terminal signal the loop runs until
    the budget is spent, one model invocation per turn. *)
Lemma while_turns_exhaust (fuel : nat) :
  (forall request s, exists response s',
      messages_create client request s = (Fulfilled response, s')
      /\ terminal (blocks_of response) = false) ->
  forall (turns : Z) (msgs : list MessageParam) (w : W),
    Z.of_nat fuel = (maxTurns config - turns)%Z ->
    exists w',
      while_turns manager client config fuel turns msgs w
      = (Ok {| success := JBool false;
               summary := JStr ("Task incomplete after "
                                +:+ num_to_string (maxTurns config) +:+ " turns");
               turns := maxTurns config |}, w')
      /\ invocations w' = invocations w + fuel.
Proof.
  intros Hnever. induction fuel as [|fuel IH]; intros turns msgs w Hfuel.
  - rewrite while_turns_spent by lia. exists w.
    replace turns with (maxTurns config) by lia. split; [done|lia].
  - destruct (Hnever (request config msgs) (service w))
      as (response & s & Hcreate & Hterm).
    rewrite (while_turns_continue fuel turns msgs w response s) by (done || lia).
    cbv zeta.
    pose proof (dispatch_in_order_frame (filter_tool_use (blocks_of response))
                  (invoked w s)) as (_ & _ & Hinv).
    destruct (dispatch_in_order _ _ _) as [toolResults w1]. simpl in Hinv.
    destruct (IH (turns + 1)%Z
                (msgs ++ [Assistant (blocks_of response); UserToolResults toolResults])
                w1) as (w' & Hrun & Hcount); [lia|].
    exists w'. split; [done|]. rewrite Hcount, Hinv. lia.
Qed.

(** As long as the run brings no terminal signal the loop follows it, one
    model invocation per turn, until the budget is spent. *)
Lemma while_turns_without_signal (n : nat) :
  forall (turns : Z) (msgs : list MessageParam) (w w' : W),
    Z.of_nat n = (maxTurns config - turns)%Z ->
    turns_without_signal manager client config n msgs w = Some w' ->
    while_turns manager client config n turns msgs w
    = (Ok {| success := JBool false;
             summary := JStr ("Task incomplete after "
                              +:+ num_to_string (maxTurns config) +:+ " turns");
             turns := maxTurns config |}, w')
    /\ invocations w' = invocations w + n.
Proof.
  induction n as [|n IH]; intros turns msgs w w' Hn; simpl turns_without_signal.
  - intros [= <-]. rewrite while_turns_spent by lia.
    replace turns with (maxTurns config) by lia. split; [done|lia].
  - destruct (messages_create client (request config msgs) (service w))
      as [[response|e] s] eqn:Hcreate; [|discriminate].
    destruct (terminal (blocks_of response)) eqn:Hterm; [discriminate|].
    rewrite (while_turns_continue n turns msgs w response s) by (done || lia).
    cbv zeta.
    pose proof (dispatch_in_order_frame (filter_tool_use (blocks_of response))
                  (invoked w s)) as (_ & _ & Hinv).
    destruct (dispatch_in_order _ _ _) as [toolResults w1]. simpl in Hinv.
    intros Hrest. apply (IH (turns + 1)%Z) in Hrest as [Hrun Hcount]; [|lia].
    split; [done|]. rewrite Hcount, Hinv. lia.
Qed.

(** C3 (as amended). On any turn whose batch of tool uses reaches a [done],
    [execute] returns at once with [success] and [summary] read from that
    [done] and with the number of the current turn; the tool uses that
    precede the [done] in the batch have been dispatched, in order, and none
    that follows it is: the session is left as dispatching exactly the
    preceding ones leaves it. *)
Theorem done_returns_after_preceding_actions
    (fuel : nat) (turns : Z) (msgs : list MessageParam)
    (w : W) (response : Response) (s : M)
    (before after : list ToolUseBlock) (done : ToolUseBlock) :
  (turns < maxTurns config)%Z ->
  messages_create client (request config msgs) (service w) = (Fulfilled response, s) ->
  filter_tool_use (blocks_of response) = before ++ done :: after ->
  Forall (fun toolUse => is_done toolUse = false) before ->
  is_done done = true ->
  while_turns manager client config (S fuel) turns msgs w
  = (Ok {| success := field (input done) "success";
           summary := field (input done) "summary";
           turns := (turns + 1)%Z |},
     snd (dispatch_in_order manager before (invoked w s))).
Proof.
  intros Hlt Hcreate Huses Hbefore Hdone. simpl.
  destruct (Z.ltb_spec turns (maxTurns config)); [|lia].
  unfold bind, create. rewrite Hcreate. simpl. rewrite Huses.
  destruct (before ++ done :: after) eqn:E; [by destruct before|].
  simpl (length _ =? 0)%nat. cbv beta iota. rewrite <- E. fold (invoked w s).
  by rewrite (for_toolUses_done _ _ _ _ Hbefore Hdone).
Qed.


End Loop.


(** C2. With a turn budget that is not negative, [execute] terminates, and
    when it returns a result its turn count lies between 0 and [maxTurns]. *)
Theorem turns_within_budget (config : Config) (instruction : string) (w : W) :
  (0 <= maxTurns config)%Z ->
  match fst (execute manager client config instruction w) with
  | Ok r => (0 <= turns r <= maxTurns config)%Z
  | Throw _ => True
  | Diverged => False
  end.
Proof.
  intros Hbudget. unfold execute.
  apply while_turns_result; lia.
Qed.

(** C4. When, in the run of [execute], the model service answers each of
    the first [maxTurns] requests without a terminal signal, [execute]
    returns [{success: false, turns: maxTurns}] with the summary "Task
    incomplete after <maxTurns> turns", in the world these [maxTurns] turns
    lead to: the model service has been invoked exactly [maxTurns] times, each
    time with the conversation so far, and is left in the state its
    [maxTurns]-th answer put it in; there is no further invocation. *)
Theorem budget_exhausted_without_terminal_signal
    (config : Config) (instruction : string) (w w' : W) :
  (0 <= maxTurns config)%Z ->
  turns_without_signal manager client config (Z.to_nat (maxTurns config))
    [UserText instruction] w = Some w' ->
  execute manager client config instruction w
  = (Ok {| success := JBool false;
           summary := JStr ("Task incomplete after "
                            +:+ num_to_string (maxTurns config) +:+ " turns");
           turns := maxTurns config |}, w')
  /\ invocations w' = invocations w + Z.to_nat (maxTurns config).
Proof.
  intros Hbudget Hrun. unfold execute.
  apply while_turns_without_signal; [lia|done].
Qed.

(** C7 (as amended). The [do] command handler answers a missing, empty or
    non-string instruction with [{success: false, error: 'Missing
    instruction'}] before an agent is built: the model is not invoked and the
    session is not used. *)
Theorem handle_do_rejects_missing_instruction (cmd : DoCommand) (w : W) :
  truthy (instruction cmd) = false \/ is_string (instruction cmd) = false ->
  handle_do manager client cmd w = (Ok (Failure "Missing instruction"), w).
Proof.
  intros H. unfold handle_do.
  by destruct H as [-> | ->]; rewrite ?orb_true_r.
Qed.

(** In the plan's [execute] a failure of the model service is not caught: it
    leaves [execute] as an exception, and the [do] command handler turns it
    into [{success: false, error: message}]. *)
Lemma execute_propagates_model_failure (config : Config) (instruction : string)
    (w : W) (e : Thrown) (s : M) :
  (0 < maxTurns config)%Z ->
  messages_create client (request config [UserText instruction]) (service w)
  = (Rejected e, s) ->
  execute manager client config instruction w = (Throw e, invoked w s).
Proof.
  intros Hbudget Hcreate. unfold execute.
  destruct (Z.to_nat (maxTurns config)) as [|fuel] eqn:E; [lia|].
  by apply while_turns_rejected.
Qed.

Lemma handle_do_catches (cmd : DoCommand) (w w' : W) (e : Thrown) :
  truthy (instruction cmd) = true ->
  is_string (instruction cmd) = true ->
  execute manager client (merge_config DEFAULT_CONFIG (config cmd))
    (to_str (instruction cmd)) w = (Throw e, w') ->
  handle_do manager client cmd w = (Ok (Failure (error_message e)), w').
Proof.
  intros Ht Hs Hrun. unfold handle_do. rewrite Ht, Hs. simpl.
  unfold try_catch, bind. by rewrite Hrun.
Qed.

(** The [scroll] tool of the plan: the amount falls back to 500 when the
    given one is falsy, is passed to the session as it is, and is named in
    the observation. *)
Lemma executeTool_scroll (input : JsObject) (w : W) (b' : B) :
  let amount := js_or (field input "amount") (JNum 500) in
  scroll manager (field input "direction") amount (browser w) = (Fulfilled tt, b') ->
  executeTool manager "scroll" input w
  = (Ok ("Scrolled " +:+ to_str (field input "direction") +:+ " "
         +:+ to_str amount +:+ "px"),
     Build_World b' (service w) (invocations w)).
Proof.
  intros amount Hscroll. unfold executeTool, try_catch, executeTool_body. simpl.
  unfold bind, on_browser. fold amount. by rewrite Hscroll.
Qed.

Lemma executeTool_scroll_zero (input : JsObject) (w : W) (b' : B) :
  field input "amount" = JNum 0 ->
  scroll manager (field input "direction") (JNum 500) (browser w) = (Fulfilled tt, b') ->
  executeTool manager "scroll" input w
  = (Ok ("Scrolled " +:+ to_str (field input "direction") +:+ " 500px"),
     Build_World b' (service w) (invocations w)).
Proof.
  intros Hzero Hscroll.
  rewrite (executeTool_scroll input w b'); rewrite Hzero; simpl; done.
Qed.

(** The [snapshot] tool of the plan answers with what the session returns for
    the option derived from [fullPage]: two sessions that answer the same
    give the same observation. *)
Lemma executeTool_snapshot_stable (input : JsObject) (w1 w2 : W) :
  fst (snapshot manager (negb (truthy (field input "fullPage"))) (browser w1))
  = fst (snapshot manager (negb (truthy (field input "fullPage"))) (browser w2)) ->
  fst (executeTool manager "snapshot" input w1)
  = fst (executeTool manager "snapshot" input w2).
Proof.
  unfold executeTool, try_catch, executeTool_body. simpl. unfold bind, on_browser.
  destruct (snapshot manager _ (browser w1)) as [r1 b1].
  destruct (snapshot manager _ (browser w2)) as [r2 b2]. simpl.
  intros ->. by destruct r2.
Qed.

End Facts.
End PlanFacts.

(** * Properties of the SDK-based agent *)
Module SdkFacts.
Import Sdk.

Section ToolFacts.
Context {B L P : Type}.
Variable browser : BrowserManager B L P.

(** C8 (as amended). The scroll tool scrolls by the given amount when one is
    given and is not 0, and by 500 pixels otherwise; the viewport moves by
    [(0, -amount)] for up, [(0, amount)] for down, [(-amount, 0)] for left and
    [(amount, 0)] for right, and the observation reads
    "Scrolled <direction> <amount>px". *)
Theorem scroll_by_signed_delta (args : ScrollArgs) (b b1 b2 : B) (page : P) :
  let amount :=
    match amount args with
    | Some a => if (a =? 0)%Z then 500%Z else a
    | None => 500%Z
    end in
  let delta :=
    match direction args with
    | up => (0, - amount)%Z
    | down => (0, amount)%Z
    | left => (- amount, 0)%Z
    | right => (amount, 0)%Z
    end in
  getPage browser b = (Fulfilled page, b1) ->
  evaluate browser page
    ("window.scrollBy(" +:+ num_to_string (fst delta) +:+ ", "
       +:+ num_to_string (snd delta) +:+ ")") b1 = (Fulfilled tt, b2) ->
  browser_scroll browser args b
  = (Ok (text_result ("Scrolled " +:+ direction_name (direction args) +:+ " "
                        +:+ num_to_string amount +:+ "px")), b2).
Proof.
  intros amount delta Hpage Hscroll.
  unfold browser_scroll, bind, await. rewrite Hpage. simpl.
  replace (scroll_delta (direction args) (amount_or_default (Sdk.amount args)))
    with delta by (subst delta amount; by destruct (direction args)).
  unfold scrollBy_script. by rewrite Hscroll.
Qed.

(** C10. A scroll request whose amount is the number 0 is served as if no
    amount were given: the page is scrolled by 500 pixels in the requested
    direction and the observation reads "Scrolled <direction> 500px". *)
Theorem scroll_zero_amount_defaults (d : Direction) (b b1 b2 : B) (page : P) :
  getPage browser b = (Fulfilled page, b1) ->
  evaluate browser page (scrollBy_script (scroll_delta d 500)) b1 = (Fulfilled tt, b2) ->
  browser_scroll browser {| direction := d; amount := Some 0%Z |} b
  = (Ok (text_result ("Scrolled " +:+ direction_name d +:+ " 500px")), b2)
  /\ browser_scroll browser {| direction := d; amount := Some 0%Z |} b
     = browser_scroll browser {| direction := d; amount := None |} b.
Proof.
  intros Hpage Hscroll. split; [|reflexivity].
  unfold browser_scroll, bind, await. simpl. rewrite Hpage. simpl.
  by rewrite Hscroll.
Qed.

(** C9. The snapshot tool asks the session for the tree selected by
    [fullPage] and answers with it verbatim.  When the tree the session
    returns is determined by the page it shows, two invocations with the same
    [fullPage] against the same page give the same observation. *)
Theorem snapshot_idempotent {Page : Type} (page_of : B -> Page)
    (tree_of : bool -> Page -> Settled string) (args : SnapshotArgs) (b b' : B) :
  reads_page page_of tree_of (getSnapshot browser) ->
  page_of b' = page_of b ->
  fst (browser_snapshot browser args b') = fst (browser_snapshot browser args b).
Proof.
  intros Hreads Hsame. unfold browser_snapshot, bind, await.
  pose proof (Hreads (negb (default false (fullPage args))) b) as H.
  pose proof (Hreads (negb (default false (fullPage args))) b') as H'.
  rewrite Hsame, <- H in H'.
  destruct (getSnapshot browser _ b) as [r s].
  destruct (getSnapshot browser _ b') as [r' s']. simpl in *. subst r'.
  by destruct r.
Qed.

(** The handlers registered with the SDK hold no [try]: an error of the
    session leaves the handler as an exception, and turning it into a tool
    result is left to the SDK. *)
Lemma browser_click_raises (args : ClickArgs) (b b' : B) (e : Thrown) :
  getLocator browser (click_target args) b = (Rejected e, b') ->
  browser_click browser args b = (Throw e, b').
Proof.
  intros Hresolve. unfold browser_click, bind, await. by rewrite Hresolve.
Qed.

End ToolFacts.

Section ExecuteFacts.
Context {Q : Type}.
Variable sdk : AgentSdk Q.
Variable config : Config.



(** The turn count of the SDK-based [execute] is the one the SDK reports, or
    the number of assistant messages seen: it stays within the budget handed
    to the SDK as long as the SDK honours that budget. *)
Lemma for_await_bounded (n : Z) (stream : Stream) :
  forall f : Frame Q,
    honours_budget n (var_turns f) stream = true ->
    (0 <= var_turns f)%Z ->
    match for_await stream f with
    | (Ok r, _) => (0 <= turns r <= n)%Z
    | (Throw _, f') => (0 <= var_turns f' <= n)%Z
    | (Diverged, _) => False
    end.
Proof.
  induction stream as [|e|message rest IH]; intros f Hb Hseen; simpl in *.
  - lia.
  - lia.
  - destruct message as [content|result k|subtype errors k|type]; simpl.
    + unfold bind, increment_turns.
      destruct (0 <? length (text_blocks content))%nat; simpl;
        apply IH; simpl; (assumption || lia).
    + lia.
    + lia.
    + by apply IH.
Qed.

Lemma execute_turns_bounded (instruction : string) (w : Q * nat) :
  honours_budget (maxTurns config) 0
    (fst (query sdk (query_params config instruction) (fst w))) = true ->
  match fst (execute sdk config instruction w) with
  | Ok r => (0 <= turns r <= maxTurns config)%Z
  | _ => False
  end.
Proof.
  intros Hb. unfold execute, execute_in_frame, try_catch, bind, start_query. simpl.
  destruct (query sdk (query_params config instruction) (fst w)) as [stream q].
  simpl in *.
  pose proof (for_await_bounded (maxTurns config) stream
                (Build_Frame q (S (snd w)) 0 "") Hb) as H.
  destruct (for_await stream _) as [[r|e|] f']; simpl in *; apply H; lia.
Qed.

(** A result message ends the iteration: a successful one with its own text,
    else the last assistant text, else "Completed" as summary; a failed one
    with its errors. *)
Lemma for_await_result_success (result : string) (n : Z) (rest : Stream) (f : Frame Q) :
  for_await (Yield (ResultSuccess result n) rest) f
  = (Ok {| success := true;
           summary := str_or result (str_or (var_lastAssistantMessage f) "Completed");
           turns := n |}, f).
Proof. reflexivity. Qed.

Lemma for_await_result_failure (subtype : string) (errors : list string) (n : Z)
    (rest : Stream) (f : Frame Q) :
  for_await (Yield (ResultFailure subtype (Some errors) n) rest) f
  = (Ok {| success := false; summary := join ", " errors; turns := n |}, f).
Proof. reflexivity. Qed.


End ExecuteFacts.
End SdkFacts.

(** * The agents on concrete conversations *)
Module Runs.
Import Scenarios.


(** Scenario A: a click, then [done] on the second turn. *)
Lemma turns_within_budget_witness :
  (0 <= Plan.maxTurns (budget 15))%Z
  /\ match fst (Plan.execute recorder scripted (budget 15) "click the only button"
                 (start click_then_done)) with
     | Ok r => (0 <= Plan.turns r <= Plan.maxTurns (budget 15))%Z
     | Throw _ => True
     | Diverged => False
     end.
Proof.
  split; [simpl; lia|].
  apply (PlanFacts.turns_within_budget recorder scripted (budget 15)). simpl; lia.
Defined.

Lemma done_returns_after_preceding_actions_witness :
  (0 < Plan.maxTurns (budget 15))%Z
  /\ Plan.while_turns recorder scripted (budget 15) 1 0
       [Plan.UserText "click the only button"] (start [click_done_press])
     = (Ok {| Plan.success := JBool true;
              Plan.summary := JStr "Clicked the button";
              Plan.turns := 1 |},
        {| Plan.browser := ["click @e1"]; Plan.service := []; Plan.invocations := 1 |}).
Proof.
  split; [simpl; lia|].
  apply (PlanFacts.done_returns_after_preceding_actions recorder scripted (budget 15)
           0%nat 0%Z [Plan.UserText "click the only button"] (start [click_done_press])
           click_done_press [] [click_e1] [press_enter] done_clicked).
  - simpl; lia.
  - reflexivity.
  - reflexivity.
  - repeat constructor.
  - reflexivity.
Defined.

(** C3, as stated, fails: the batch holds a [done], yet the click that
    precedes it in the batch is dispatched to the session. *)
Lemma done_does_not_skip_preceding_actions :
  Plan.terminal (Plan.blocks_of click_done_press) = true
  /\ Plan.browser (start [click_done_press]) = []
  /\ Plan.execute recorder scripted (budget 15) "click the only button"
       (start [click_done_press])
     = (Ok {| Plan.success := JBool true;
              Plan.summary := JStr "Clicked the button";
              Plan.turns := 1 |},
        {| Plan.browser := ["click @e1"]; Plan.service := []; Plan.invocations := 1 |}).
Proof. vm_compute. repeat split. Qed.

(** Three turns of budget against a script whose fourth answer would be a
    [done]: the three snapshots are taken, and the fourth answer is left in
    the script. *)
Lemma budget_exhausted_without_terminal_signal_witness :
  (0 <= Plan.maxTurns (budget 3))%Z
  /\ Plan.turns_without_signal recorder scripted (budget 3) 3 [Plan.UserText "log in"]
       (start snapshots_then_done)
     = Some {| Plan.browser := ["snapshot"; "snapshot"; "snapshot"];
               Plan.service := [ {| Plan.blocks_of := [Plan.ToolUse done_clicked] |} ];
               Plan.invocations := 3 |}
  /\ Plan.execute recorder scripted (budget 3) "log in" (start snapshots_then_done)
     = (Ok {| Plan.success := JBool false;
              Plan.summary := JStr "Task incomplete after 3 turns";
              Plan.turns := 3 |},
        {| Plan.browser := ["snapshot"; "snapshot"; "snapshot"];
           Plan.service := [ {| Plan.blocks_of := [Plan.ToolUse done_clicked] |} ];
           Plan.invocations := 3 |}).
Proof.
  split; [simpl; lia|]. split; [reflexivity|].
  apply (PlanFacts.budget_exhausted_without_terminal_signal recorder scripted
           (budget 3) "log in" (start snapshots_then_done)
           {| Plan.browser := ["snapshot"; "snapshot"; "snapshot"];
              Plan.service := [ {| Plan.blocks_of := [Plan.ToolUse done_clicked] |} ];
              Plan.invocations := 3 |});
    [simpl; lia|reflexivity].
Defined.




Lemma handle_do_rejects_missing_instruction_witness :
  (truthy (JStr "") = false \/ is_string (JStr "") = false)
  /\ Plan.handle_do recorder scripted
       {| Plan.instruction := JStr ""; Plan.config := None |} (start [plain_answer])
     = (Ok (Plan.Failure "Missing instruction"), start [plain_answer])
  /\ Plan.handle_do recorder scripted
       {| Plan.instruction := JUndefined; Plan.config := None |} (start [plain_answer])
     = (Ok (Plan.Failure "Missing instruction"), start [plain_answer]).
Proof.
  split; [left; reflexivity|]. split.
  - apply (PlanFacts.handle_do_rejects_missing_instruction recorder scripted
             {| Plan.instruction := JStr ""; Plan.config := None |}).
    left; reflexivity.
  - apply (PlanFacts.handle_do_rejects_missing_instruction recorder scripted
             {| Plan.instruction := JUndefined; Plan.config := None |}).
    left; reflexivity.
Defined.

(** C7, as stated, fails: called with the empty instruction, either
    [execute] goes on to invoke the model and returns its answer. *)
Lemma execute_accepts_empty_instruction :
  Plan.execute recorder scripted (budget 15) "" (start [plain_answer])
  = (Ok {| Plan.success := JBool true; Plan.summary := JStr "Nothing to do";
           Plan.turns := 1 |},
     {| Plan.browser := []; Plan.service := []; Plan.invocations := 1 |})
  /\ Sdk.execute replay sdk_config "" (answered, 0%nat)
     = (Ok {| Sdk.success := true; Sdk.summary := "Nothing to do"; Sdk.turns := 1 |},
        (answered, 1%nat)).
Proof. vm_compute. split; reflexivity. Qed.

Lemma scroll_by_signed_delta_witness :
  Sdk.getPage page_recorder [] = (Fulfilled tt, [])
  /\ Sdk.evaluate page_recorder tt "window.scrollBy(-120, 0)" []
     = (Fulfilled tt, ["evaluate window.scrollBy(-120, 0)"])
  /\ Sdk.browser_scroll page_recorder
       {| Sdk.direction := Sdk.left; Sdk.amount := Some 120%Z |} []
     = (Ok (Sdk.text_result "Scrolled left 120px"), ["evaluate window.scrollBy(-120, 0)"]).
Proof.
  split; [reflexivity|]. split; [reflexivity|].
  apply (SdkFacts.scroll_by_signed_delta page_recorder
           {| Sdk.direction := Sdk.left; Sdk.amount := Some 120%Z |} [] []
           ["evaluate window.scrollBy(-120, 0)"] tt);
    reflexivity.
Defined.

(** C8, as stated, fails at the amount 0: the page is scrolled by 500 pixels
    and the observation names 500, not the 0 that was given. *)
Lemma scroll_zero_amount_not_honoured :
  Sdk.browser_scroll page_recorder {| Sdk.direction := Sdk.up; Sdk.amount := Some 0%Z |} []
  = (Ok (Sdk.text_result "Scrolled up 500px"), ["evaluate window.scrollBy(0, -500)"])
  /\ Sdk.browser_scroll page_recorder {| Sdk.direction := Sdk.up; Sdk.amount := Some 0%Z |} []
     <> (Ok (Sdk.text_result "Scrolled up 0px"), ["evaluate window.scrollBy(0, 0)"]).
Proof. vm_compute. split; [reflexivity|discriminate]. Qed.

(** The second of two snapshots of the same page equals the first. *)
Lemma snapshot_idempotent_witness :
  fst (snd (Sdk.browser_snapshot titled {| Sdk.fullPage := Some true |} ("Welcome", 0%nat)))
  = "Welcome"
  /\ fst (Sdk.browser_snapshot titled {| Sdk.fullPage := Some true |}
            (snd (Sdk.browser_snapshot titled {| Sdk.fullPage := Some true |}
                    ("Welcome", 0%nat))))
     = fst (Sdk.browser_snapshot titled {| Sdk.fullPage := Some true |} ("Welcome", 0%nat))
  /\ fst (Sdk.browser_snapshot titled {| Sdk.fullPage := Some true |} ("Welcome", 0%nat))
     = Ok (Sdk.text_result "- heading Welcome - button Submit [ref=e1]").
Proof.
  split; [reflexivity|]. split; [|reflexivity].
  apply (SdkFacts.snapshot_idempotent titled fst render
           {| Sdk.fullPage := Some true |} ("Welcome", 0%nat)
           (snd (Sdk.browser_snapshot titled {| Sdk.fullPage := Some true |}
                   ("Welcome", 0%nat))));
    [intros interactive session|]; reflexivity.
Defined.

Lemma scroll_zero_amount_defaults_witness :
  Sdk.getPage page_recorder [] = (Fulfilled tt, [])
  /\ Sdk.browser_scroll page_recorder {| Sdk.direction := Sdk.down; Sdk.amount := Some 0%Z |} []
     = (Ok (Sdk.text_result "Scrolled down 500px"), ["evaluate window.scrollBy(0, 500)"]).
Proof.
  split; [reflexivity|].
  apply (SdkFacts.scroll_zero_amount_defaults page_recorder Sdk.down [] []
           ["evaluate window.scrollBy(0, 500)"] tt);
    reflexivity.
Defined.

End Runs.

(** * Further properties of the plan's agent *)
Module PlanMore.
Import Plan Transcript.

Section More.
Context {B M : Type}.
Variable manager : BrowserManager B.

Local Abbreviation W := (World B M).

Section WithClient.
Variable client : Anthropic M.
Variable config : Config.

(** The loop never runs out of the iterations [execute] grants it. *)
Lemma while_turns_terminates (fuel : nat) :
  forall (turns : Z) (msgs : list MessageParam) (w : W),
    (maxTurns config - turns <= Z.of_nat fuel)%Z ->
    fst (while_turns manager client config fuel turns msgs w) <> Diverged.
Proof.
  induction fuel as [|fuel IH]; intros turns msgs w Hfuel.
  - by rewrite PlanFacts.while_turns_spent by lia.
  - destruct (Z.ltb_spec turns (maxTurns config)) as [Hlt|Hge];
      [|by rewrite PlanFacts.while_turns_spent by lia].
    simpl. destruct (Z.ltb_spec turns (maxTurns config)); [|lia].
    unfold bind, create.
    destruct (messages_create client (request config msgs) (service w))
      as [[response|e] s]; simpl; [|done].
    destruct (length (filter_tool_use (blocks_of response)) =? 0)%nat; [done|].
    cbv beta.
    destruct (PlanFacts.for_toolUses_settles manager (turns + 1)
                (filter_tool_use (blocks_of response)) [] (invoked w s))
      as (exit & w' & Hrun & _).
    rewrite Hrun. destruct exit as [r|toolResults]; [done|].
    apply IH. lia.
Qed.

(** Turns and model invocations advance together. *)
Lemma while_turns_counts (fuel : nat) :
  forall (turns : Z) (msgs : list MessageParam) (w w' : W) (r : AgentResult),
    while_turns manager client config fuel turns msgs w = (Ok r, w') ->
    (Z.of_nat (invocations w') - Z.of_nat (invocations w) = Plan.turns r - turns)%Z.
Proof.
  induction fuel as [|fuel IH]; intros turns msgs w w' r; simpl;
    destruct (Z.ltb_spec turns (maxTurns config)) as [Hlt|Hge].
  - discriminate.
  - intros [= <- <-]; simpl; lia.
  - revert Hlt IH. intros Hlt IH. unfold bind, create.
    destruct (messages_create client (request config msgs) (service w))
      as [[response|e] s]; simpl; [|discriminate].
    destruct (length (filter_tool_use (blocks_of response)) =? 0)%nat;
      [intros [= <- <-]; simpl; lia|].
    cbv beta.
    destruct (PlanFacts.for_toolUses_settles manager (turns + 1)
                (filter_tool_use (blocks_of response)) [] (invoked w s))
      as (exit & w1 & Hrun & _ & Hinv & Hr).
    rewrite Hrun. simpl in Hinv. destruct exit as [r'|toolResults].
    + intros [= <- <-]. rewrite (Hr r' eq_refl). lia.
    + intros Hrest. apply IH in Hrest. lia.
  - intros [= <- <-]; simpl; lia.
Qed.

(** X1. The turn count of a result is the number of model invocations the
    call has made, the one that brought the terminal signal included. *)
Theorem execute_turns_count_invocations (instruction : string) (w w' : W)
    (r : AgentResult) :
  execute manager client config instruction w = (Ok r, w') ->
  Z.of_nat (invocations w') = (Z.of_nat (invocations w) + turns r)%Z.
Proof.
  intros Hrun. apply while_turns_counts in Hrun. lia.
Qed.

(** X2. Only the model service can make [execute] throw: when the service
    answers every request, [execute] returns a result whatever the browser
    session does. *)
Theorem execute_returns_when_model_answers (instruction : string) (w : W) :
  (forall request s, exists response s',
      messages_create client request s = (Fulfilled response, s')) ->
  exists r w', execute manager client config instruction w = (Ok r, w').
Proof.
  intros Hanswers. unfold execute.
  assert (forall fuel turns msgs (w0 : W),
            (maxTurns config - turns <= Z.of_nat fuel)%Z ->
            exists r w', while_turns manager client config fuel turns msgs w0 = (Ok r, w'))
    as Hloop.
  { induction fuel as [|fuel IH]; intros turns msgs w0 Hfuel.
    - rewrite PlanFacts.while_turns_spent by lia. eauto.
    - destruct (Z.ltb_spec turns (maxTurns config)) as [Hlt|Hge];
        [|rewrite PlanFacts.while_turns_spent by lia; eauto].
      simpl. destruct (Z.ltb_spec turns (maxTurns config)); [|lia].
      unfold bind, create.
      destruct (Hanswers (request config msgs) (service w0)) as (response & s & ->).
      simpl.
      destruct (length (filter_tool_use (blocks_of response)) =? 0)%nat; [eauto|].
      cbv beta.
      destruct (PlanFacts.for_toolUses_settles manager (turns + 1)
                  (filter_tool_use (blocks_of response)) [] (invoked w0 s))
        as (exit & w1 & Hrun & _).
      rewrite Hrun. destruct exit as [r|toolResults]; [eauto|].
      apply IH. lia. }
  apply Hloop. lia.
Qed.

(** X9. With a turn budget of 0 or less, [execute] returns the
    budget-exceeded result at once, with 0 turns: neither the model nor the
    browser session is used. *)
Theorem execute_without_budget (instruction : string) (w : W) :
  (maxTurns config <= 0)%Z ->
  execute manager client config instruction w
  = (Ok {| success := JBool false;
           summary := JStr ("Task incomplete after "
                            +:+ num_to_string (maxTurns config) +:+ " turns");
           turns := 0 |}, w).
Proof.
  intros Hbudget. unfold execute. by apply PlanFacts.while_turns_spent.
Qed.

End WithClient.

(** X3. The [do] command handler always answers: it neither throws nor
    fails to terminate, whatever the command, the model service and the
    browser session do. *)
Theorem handle_do_always_answers (client : Anthropic M) (cmd : DoCommand) (w : W) :
  exists response w', handle_do manager client cmd w = (Ok response, w').
Proof.
  unfold handle_do.
  destruct (negb (truthy (instruction cmd)) || negb (is_string (instruction cmd)));
    [unfold ret; eauto|].
  unfold try_catch, bind, execute.
  pose proof (while_turns_terminates client
                (merge_config DEFAULT_CONFIG (Plan.config cmd))
                (Z.to_nat (maxTurns (merge_config DEFAULT_CONFIG (Plan.config cmd))))
                0 [UserText (to_str (instruction cmd))] w) as Hterm.
  destruct (while_turns _ _ _ _ _ _ w) as [[r|e|] w']; simpl in *.
  - eauto.
  - unfold ret. eauto.
  - exfalso. apply Hterm; [lia|done].
Qed.

(** X4. When the [config] of a [do] command gives [maxTurns] as an integer
    [n] that is not negative, the turn count the command reports lies between
    0 and [n]. *)
Theorem handle_do_turns_within_budget (client : Anthropic M) (cmd : DoCommand)
    (c : AgentConfig) (n : Z) (w w' : W) (s m : JsVal) (t : Z) :
  Plan.config cmd = Some c ->
  maxTurns_opt c = Some n ->
  (0 <= n)%Z ->
  handle_do manager client cmd w = (Ok (Data s m t), w') ->
  (0 <= t <= n)%Z.
Proof.
  intros Hconfig Hgiven Hbudget. unfold handle_do.
  destruct (negb (truthy (instruction cmd)) || negb (is_string (instruction cmd)));
    [discriminate|].
  assert (maxTurns (merge_config DEFAULT_CONFIG (Plan.config cmd)) = n) as Hmerged.
  { rewrite Hconfig. simpl. by rewrite Hgiven. }
  unfold try_catch, bind, execute.
  pose proof (PlanFacts.while_turns_result manager client
                (merge_config DEFAULT_CONFIG (Plan.config cmd))
                (Z.to_nat (maxTurns (merge_config DEFAULT_CONFIG (Plan.config cmd))))
                0 [UserText (to_str (instruction cmd))] w) as Hres.
  rewrite Hmerged in *.
  destruct (while_turns _ _ _ _ _ _ w) as [[r|e|] w1]; simpl in *;
    [|discriminate|discriminate].
  intros [= <- <- <- <-]. apply Hres; lia.
Qed.

(** X5. A tool name outside the catalogue, and [done] itself when it reaches
    the dispatcher, is answered with "Unknown tool: <name>"; the browser
    session is not touched. *)
Theorem executeTool_unknown_tool (name : string) (input : JsObject) (w : W) :
  name ∉ map tool_name tools \/ name = "done" ->
  executeTool manager name input w = (Ok ("Unknown tool: " +:+ name), w).
Proof.
  intros Hname.
  assert (Forall (fun known => String.eqb name known = false)
            ["snapshot"; "click"; "fill"; "type"; "press"; "scroll"; "wait"]) as Hnone.
  { destruct Hname as [Hout | ->]; [|by repeat constructor].
    repeat constructor; apply String.eqb_neq; intros ->; apply Hout;
      simpl; set_solver. }
  repeat match goal with
  | H : Forall _ (_ :: _) |- _ => apply Forall_cons in H as [? H]
  end.
  unfold executeTool, try_catch, executeTool_body.
  repeat match goal with
  | H : String.eqb name _ = false |- _ => rewrite H; clear H
  end.
  reflexivity.
Qed.

(** X6. A [wait] with a truthy [ms] only lets the time pass: the browser
    session is not used, even when a selector is given as well; a [wait]
    with neither a truthy [ms] nor a truthy selector does nothing at all. *)
Theorem executeTool_wait_leaves_session (input : JsObject) (w : W) :
  (truthy (field input "ms") = true ->
   executeTool manager "wait" input w
   = (Ok ("Waited " +:+ to_str (field input "ms") +:+ "ms"), w))
  /\ (truthy (field input "ms") = false ->
      truthy (field input "selector") = false ->
      executeTool manager "wait" input w = (Ok "No wait condition specified", w)).
Proof.
  unfold executeTool, try_catch, executeTool_body. simpl.
  split.
  - by intros ->.
  - by intros -> ->.
Qed.

(** X7. A batch without [done] yields one tool result per tool use, in the
    order of the batch and under the identifier of its tool use, whether the
    actions succeed or fail; the model service is not involved. *)
Theorem batch_results_follow_tool_uses (turns : Z) (toolUses : list ToolUseBlock)
    (acc : list ToolResultBlockParam) (w : W) :
  Forall (fun toolUse => is_done toolUse = false) toolUses ->
  exists results w',
    for_toolUses manager turns toolUses acc w = (Ok (Exhausted (acc ++ results)), w')
    /\ map tool_use_id results = map id toolUses
    /\ service w' = service w /\ invocations w' = invocations w.
Proof.
  intros Hbatch.
  rewrite (PlanFacts.for_toolUses_no_done manager turns toolUses Hbatch).
  destruct (PlanFacts.dispatch_in_order_frame manager toolUses w) as (Hids & Hs & Hi).
  eauto 10.
Qed.

Section Conversation.
Variable client : Anthropic M.
Variable config : Config.

Local Abbreviation R := (World B (M * list (Exchange M))).

(** A batch that holds a [done] ends by the [return] of that [done]. *)
Lemma for_toolUses_with_done (turns : Z) (toolUses : list ToolUseBlock) :
  existsb is_done toolUses = true ->
  forall (acc : list ToolResultBlockParam) (w : R),
  exists r w',
    for_toolUses manager turns toolUses acc w = (Ok (Returned r), w')
    /\ service w' = service w /\ invocations w' = invocations w.
Proof.
  induction toolUses as [|toolUse rest IH]; [discriminate|].
  intros Hdone acc w. simpl in *. unfold is_done in Hdone at 1.
  destruct (String.eqb (name toolUse) "done"); [eauto|].
  unfold bind.
  destruct (PlanFacts.executeTool_settles manager (name toolUse) (input toolUse) w)
    as (text & w1 & -> & Hs & Hi).
  destruct (IH Hdone (acc ++ [{| tool_use_id := id toolUse; content := text |}]) w1)
    as (r & w2 & -> & Hs2 & Hi2).
  exists r, w2. repeat split; congruence.
Qed.

(** A turn with a terminal signal ends the call, after this one model
    invocation. *)
Lemma while_turns_terminal (any : Anthropic (M * list (Exchange M))) (conf : Config)
    (fuel : nat) (turns : Z) (msgs : list MessageParam) (w : R)
    (response : Response) (s : M * list (Exchange M)) :
  (turns < maxTurns conf)%Z ->
  messages_create any (request conf msgs) (service w) = (Fulfilled response, s) ->
  terminal (blocks_of response) = true ->
  exists r w',
    while_turns manager any conf (S fuel) turns msgs w = (Ok r, w')
    /\ service w' = s /\ invocations w' = S (invocations w).
Proof.
  intros Hlt Hcreate Hterm. simpl.
  destruct (Z.ltb_spec turns (maxTurns conf)); [|lia].
  unfold bind, create. rewrite Hcreate. simpl.
  unfold terminal in Hterm.
  destruct (filter_tool_use (blocks_of response)) as [|toolUse rest] eqn:Huses.
  - simpl. eauto.
  - simpl (length _ =? 0)%nat. cbv beta iota.
    destruct (for_toolUses_with_done (turns + 1) (toolUse :: rest) Hterm []
                (invoked w s)) as (r & w1 & Hrun & Hs & Hi).
    fold (invoked w s). rewrite Hrun. simpl. eauto.
Qed.

Lemma while_turns_recorded (fuel : nat) :
  forall (turns : Z) (msgs : list MessageParam) (w : R),
  exists sent,
    snd (service (snd (while_turns manager (recording client) config fuel turns msgs w)))
    = snd (service w) ++ sent
    /\ grows manager msgs w sent
    /\ Forall (fun exchange => standing config (fst (fst exchange))) sent
    /\ invocations (snd (while_turns manager (recording client) config fuel turns msgs w))
       = invocations w + length sent.
Proof.
  induction fuel as [|fuel IH]; intros turns msgs w;
    destruct (Z.ltb_spec turns (maxTurns config)) as [Hlt|Hge].
  - simpl. destruct (Z.ltb_spec turns (maxTurns config)); [|lia].
    exists []. rewrite app_nil_r. simpl. repeat split; (constructor || lia).
  - rewrite PlanFacts.while_turns_spent by lia.
    exists []. rewrite app_nil_r. simpl. repeat split; (constructor || lia).
  - assert (exists answer s,
              messages_create (recording client) (request config msgs) (service w)
              = (answer, (s, snd (service w) ++ [(request config msgs, answer, s)])))
      as (answer & s & Hcreate).
    { unfold recording. cbn [messages_create].
      destruct (messages_create client _ _) as [answer s]. eauto. }
    set (x := (request config msgs, answer, s) : Exchange M) in *.
    assert (forall w1 : R,
              service w1 = (s, snd (service w) ++ [x]) ->
              invocations w1 = S (invocations w) ->
              snd (service w1) = snd (service w) ++ [x]
              /\ grows manager msgs w [x]
              /\ Forall (fun exchange => standing config (fst (fst exchange))) [x]
              /\ invocations w1 = invocations w + length [x]) as Hone.
    { intros w1 Hs Hi. rewrite Hs, Hi. simpl.
      split; [done|]. split; [done|]. split; [by repeat constructor|lia]. }
    destruct answer as [response|e].
    2:{ rewrite (PlanFacts.while_turns_rejected manager (recording client) config
                   fuel turns msgs w e _ Hlt Hcreate).
        exists [x]. by apply Hone. }
    destruct (terminal (blocks_of response)) eqn:Hterm.
    + destruct (while_turns_terminal (recording client) config fuel turns msgs w
                  response _ Hlt Hcreate Hterm) as (r & w1 & -> & Hs & Hi).
      exists [x]. by apply Hone.
    + rewrite (PlanFacts.while_turns_continue manager (recording client) config
                 fuel turns msgs w response _ Hlt Hcreate Hterm).
      cbv zeta.
      pose proof (PlanFacts.dispatch_in_order_frame manager
                    (filter_tool_use (blocks_of response))
                    (invoked w (s, snd (service w) ++ [x]))) as (_ & Hs & Hi).
      destruct (dispatch_in_order manager (filter_tool_use (blocks_of response))
                  (invoked w (s, snd (service w) ++ [x]))) as [toolResults w1] eqn:Hd.
      simpl in Hs, Hi. cbv beta iota.
      destruct (IH (turns + 1)%Z
                  (msgs ++ [Assistant (blocks_of response); UserToolResults toolResults]) w1)
        as (sent & Hlog & Hgrows & Hstanding & Hcount).
      exists (x :: sent). rewrite Hlog, Hcount, Hs, Hi. simpl.
      rewrite <- app_assoc. simpl.
      split; [done|]. split; [|split; [|lia]].
      * split; [done|]. destruct sent as [|y sent]; [done|].
        exists response. split; [done|]. split; [done|].
        fold x. by rewrite Hd.
      * constructor; [by repeat split|done].
  - rewrite PlanFacts.while_turns_spent by lia.
    exists []. rewrite app_nil_r. simpl. repeat split; (constructor || lia).
Qed.

(** X8. The conversation is append-only and made of what was exchanged.
    The requests one [execute] call sends to the model service carry, in
    order: the instruction alone; then, each time, the conversation of the
    previous request followed by the blocks the model answered to it and by
    the tool results of dispatching, in order, the tool uses of that answer.
    A request is followed by another one only when its answer carried no
    terminal signal.  Every request names the configured model, 4096 as token
    limit, the system prompt and the whole tool catalogue, and there is one
    request per model invocation. *)
Theorem execute_conversation_grows (instruction : string) (w : R) :
  exists sent,
    snd (service (snd (execute manager (recording client) config instruction w)))
    = snd (service w) ++ sent
    /\ grows manager [UserText instruction] w sent
    /\ Forall (fun exchange => standing config (fst (fst exchange))) sent
    /\ invocations (snd (execute manager (recording client) config instruction w))
       = invocations w + length sent.
Proof. unfold execute. apply while_turns_recorded. Qed.

End Conversation.

End More.
End PlanMore.

(** * Further properties of the SDK-based agent *)
Module SdkMore.
Import Sdk Streams.

Lemma str_or_nonempty (s d : string) : d <> "" -> str_or s d <> "".
Proof.
  intros Hd. unfold str_or. by destruct (String.eqb_spec s "").
Qed.

(** X14. The scroll tool never asks for a scroll that does not move: the
    amount in force is never 0, so the delta is never [(0, 0)], and it moves
    along one axis only. *)
Theorem scroll_always_moves (d : Direction) (amount : option Z) :
  scroll_delta d (amount_or_default amount) <> (0, 0)%Z
  /\ (fst (scroll_delta d (amount_or_default amount)) = 0%Z
      \/ snd (scroll_delta d (amount_or_default amount)) = 0%Z).
Proof.
  assert (amount_or_default amount <> 0%Z) as Hamount.
  { unfold amount_or_default. destruct amount as [a|]; [|done].
    by destruct (Z.eqb_spec a 0). }
  destruct d; simpl; split; auto; intros [=]; lia.
Qed.

Section Handlers.
Context {B L P : Type}.
Variable browser : BrowserManager B L P.

(** X13. The wait tool treats [ms: 0] and an empty selector as absent: with
    no truthy [ms], a non-empty selector is waited for, and without one the
    tool waits for nothing and says so; a truthy [ms] is waited for whatever
    the selector. *)
Theorem browser_wait_precedence (args : WaitArgs) (b b1 : B) (page : P) :
  getPage browser b = (Fulfilled page, b1) ->
  (forall n, ms args = Some n -> n <> 0%Z ->
     browser_wait browser args b
     = match waitForTimeout browser page n b1 with
       | (Fulfilled _, b2) =>
           (Ok (text_result ("Waited " +:+ num_to_string n +:+ "ms")), b2)
       | (Rejected e, b2) => (Throw e, b2)
       end)
  /\ (ms args = None \/ ms args = Some 0%Z ->
      (forall s, selector args = Some s -> s <> "" ->
         browser_wait browser args b
         = match waitForSelector browser page s b1 with
           | (Fulfilled _, b2) =>
               (Ok (text_result ("Element " +:+ s +:+ " appeared")), b2)
           | (Rejected e, b2) => (Throw e, b2)
           end)
      /\ (selector args = None \/ selector args = Some "" ->
          browser_wait browser args b
          = (Ok (text_result "No wait condition specified"), b1))).
Proof.
  intros Hpage. unfold browser_wait, bind, await. rewrite Hpage. simpl. split.
  - intros n -> Hn. simpl. destruct (Z.eqb_spec n 0); [done|]. simpl.
    by destruct (waitForTimeout browser page n b1) as [[[]|e] b2].
  - intros Hms.
    assert (truthy_number (ms args) = false) as -> by (by destruct Hms as [-> | ->]).
    split.
    + intros s -> Hs. simpl. destruct (String.eqb_spec s ""); [done|]. simpl.
      by destruct (waitForSelector browser page s b1) as [[[]|e] b2].
    + by intros [-> | ->].
Qed.

End Handlers.

Section Stream.
Context {Q : Type}.

(** X10. The first result message decides: what the stream holds after it
    has no influence on the outcome of the iteration. *)
Theorem for_await_stops_at_result (before : list SDKMessage) (message : SDKMessage)
    (rest rest' : Stream) (f : Frame Q) :
  is_result message = true ->
  for_await (stream_of before (Yield message rest)) f
  = for_await (stream_of before (Yield message rest')) f.
Proof.
  intros Hresult. revert f.
  induction before as [|m before IH]; intros f; simpl.
  - by destruct message.
  - destruct m as [content|result n|subtype errors n|type]; simpl; try done.
    unfold bind, increment_turns.
    by destruct (0 <? length (text_blocks content))%nat; simpl; rewrite IH.
Qed.

(** Silent messages only advance the turn counter. *)
Lemma for_await_silent (quiet : list SDKMessage) (rest : Stream) :
  Forall (fun message => silent message = true) quiet ->
  forall f : Frame Q,
    for_await (stream_of quiet rest) f
    = for_await rest
        (Build_Frame (sdk_state f) (queries f)
           (var_turns f + Z.of_nat (length (List.filter is_assistant quiet)))
           (var_lastAssistantMessage f)).
Proof.
  induction 1 as [|m quiet Hm _ IH]; intros f; simpl.
  - rewrite Z.add_0_r. by destruct f.
  - destruct m as [content|result n|subtype errors n|type]; try discriminate; simpl.
    + apply bool_decide_eq_true in Hm. unfold bind, increment_turns. rewrite Hm. simpl.
      rewrite IH. simpl. do 2 f_equal. lia.
    + apply IH.
Qed.

(** An assistant message with text replaces [lastAssistantMessage]. *)
Lemma for_await_spoken (content : list ContentBlock) (rest : Stream) (f : Frame Q) :
  text_blocks content <> [] ->
  for_await (Yield (AssistantMessage content) rest) f
  = for_await rest
      (Build_Frame (sdk_state f) (queries f) (var_turns f + 1)%Z (spoken content)).
Proof.
  intros Htext. simpl. unfold bind, increment_turns, spoken.
  by destruct (text_blocks content).
Qed.

(** X15. The summary falls back on the last assistant message that had
    text, not on the last assistant message: when a result message carries
    no text of its own, the text of an earlier assistant message is the
    summary even if only tool calls came after it. *)
Theorem summary_keeps_last_spoken_text (content : list ContentBlock)
    (quiet : list SDKMessage) (n : Z) (rest : Stream) (f : Frame Q) :
  text_blocks content <> [] ->
  spoken content <> "" ->
  Forall (fun message => silent message = true) quiet ->
  fst (for_await (Yield (AssistantMessage content)
                    (stream_of quiet (Yield (ResultSuccess "" n) rest))) f)
  = Ok {| success := true; summary := spoken content; turns := n |}.
Proof.
  intros Htext Hspoken Hquiet.
  rewrite (for_await_spoken content _ f Htext).
  rewrite (for_await_silent quiet _ Hquiet).
  rewrite SdkFacts.for_await_result_success.
  cbn [fst var_lastAssistantMessage]. do 2 f_equal.
  unfold str_or. cbn [String.eqb].
  by destruct (String.eqb_spec (spoken content) "").
Qed.

Lemma for_await_success_summary (stream : Stream) :
  forall (f f' : Frame Q) (r : AgentResult),
    for_await stream f = (Ok r, f') -> success r = true -> summary r <> "".
Proof.
  induction stream as [|e|message rest IH]; intros f f' r; simpl.
  - intros [= <- <-] _. simpl. by apply str_or_nonempty.
  - discriminate.
  - destruct message as [content|result n|subtype errors n|type]; simpl.
    + unfold bind, increment_turns.
      destruct (0 <? length (text_blocks content))%nat; simpl; apply IH.
    + intros [= <- <-] _. simpl. by do 2 apply str_or_nonempty.
    + intros [= <- <-]. discriminate.
    + apply IH.
Qed.

Lemma for_await_end (messages : list SDKMessage) :
  Forall (fun message => is_result message = false) messages ->
  forall f : Frame Q,
  exists last f',
    for_await (stream_of messages EndOfStream) f
    = (Ok {| success := true;
             summary := str_or last "Completed";
             turns := (var_turns f
                       + Z.of_nat (length (List.filter is_assistant messages)))%Z |}, f').
Proof.
  induction 1 as [|message rest Hm _ IH]; intros f; simpl.
  - exists (var_lastAssistantMessage f), f. by rewrite Z.add_0_r.
  - destruct message as [content|result n|subtype errors n|type]; try discriminate; simpl.
    + unfold bind, increment_turns.
      destruct (0 <? length (text_blocks content))%nat; simpl;
        match goal with |- context [for_await _ ?f0] =>
          destruct (IH f0) as (last & f' & ->) end;
        exists last, f'; simpl; do 3 f_equal; lia.
    + apply IH.
Qed.

Variable sdk : AgentSdk Q.
Variable config : Config.

(** X11. A successful result never has an empty summary. *)
Theorem execute_success_has_summary (instruction : string) (w w' : Q * nat)
    (r : AgentResult) :
  execute sdk config instruction w = (Ok r, w') ->
  success r = true ->
  summary r <> "".
Proof.
  unfold execute, execute_in_frame, try_catch, bind, start_query. simpl.
  destruct (query sdk (query_params config instruction) (fst w)) as [stream q].
  destruct (for_await stream _) as [[r0|e|] f'] eqn:Hrun; simpl.
  - intros [= <- <-]. eapply for_await_success_summary, Hrun.
  - intros [= <- <-]. discriminate.
  - discriminate.
Qed.

(** X12. When the stream ends without a result message, [execute] reports
    success, counts the assistant messages as turns, and gives a summary
    that is not empty. *)
Theorem execute_without_result_message (instruction : string) (w : Q * nat)
    (messages : list SDKMessage) :
  fst (query sdk (query_params config instruction) (fst w))
  = stream_of messages EndOfStream ->
  Forall (fun message => is_result message = false) messages ->
  exists text,
    fst (execute sdk config instruction w)
    = Ok {| success := true; summary := text;
            turns := Z.of_nat (length (List.filter is_assistant messages)) |}
    /\ text <> "".
Proof.
  intros Hstream Hmessages.
  unfold execute, execute_in_frame, try_catch, bind, start_query. simpl.
  destruct (query sdk (query_params config instruction) (fst w)) as [stream q].
  simpl in Hstream. subst stream.
  destruct (for_await_end messages Hmessages (Build_Frame q (S (snd w)) 0 ""))
    as (last & f' & ->). simpl.
  eexists. split; [reflexivity|]. by apply str_or_nonempty.
Qed.

End Stream.
End SdkMore.

(** * The plan's dispatcher and the registered handlers *)
Module Agreement.
Import Vocabulary.

Section Agree.
Context {B M B' L P : Type}.
Variable manager : Plan.BrowserManager B.
Variable browser : Sdk.BrowserManager B' L P.

Lemma field_with_field_eq (k : string) (v : option JsVal) (o : JsObject) :
  field (with_field k v o) k = default (field o k) v.
Proof.
  unfold field, with_field. destruct v as [v|]; [|done].
  by rewrite lookup_insert_eq.
Qed.

Lemma field_with_field_ne (k k' : string) (v : option JsVal) (o : JsObject) :
  k <> k' -> field (with_field k v o) k' = field o k'.
Proof.
  intros Hne. unfold field, with_field. destruct v as [v|]; [|done].
  by rewrite lookup_insert_ne.
Qed.

Lemma field_insert_eq (k : string) (v : JsVal) (o : JsObject) :
  field (<[k := v]> o) k = v.
Proof. unfold field. by rewrite lookup_insert_eq. Qed.

Lemma field_insert_ne (k k' : string) (v : JsVal) (o : JsObject) :
  k <> k' -> field (<[k := v]> o) k' = field o k'.
Proof. intros Hne. unfold field. by rewrite lookup_insert_ne. Qed.

Lemma field_empty (k : string) : field ∅ k = JUndefined.
Proof. unfold field. by rewrite lookup_empty. Qed.

(** X16. The two dispatchers word their confirmations alike.  For every
    tool other than the snapshot and every arguments, when the [switch] of
    the plan's [executeTool] completes on the input object of the call and
    the registered handler completes on the call, the handler answers with
    exactly one text block, and it is the plan's observation. *)
Theorem dispatchers_agree_on_confirmation (call : ToolCall)
    (w w' : Plan.World B M) (b b' : B') (observation : string)
    (result : Sdk.CallToolResult) :
  is_snapshot call = false ->
  Plan.executeTool_body manager (plan_name call) (plan_input call) w
  = (Ok observation, w') ->
  handler browser call b = (Ok result, b') ->
  Sdk.content result = [observation].
Proof.
  intros Hcall Hplan Hsdk.
  destruct call as [args|args|args|args|args|args|args]; [discriminate|..];
    unfold Plan.executeTool_body in Hplan; simpl in Hplan, Hsdk;
    unfold bind, Plan.on_browser, Plan.sleep, ret in Hplan.
  - unfold Sdk.browser_click, bind, Sdk.await, ret in Hsdk.
    rewrite !field_insert_eq in Hplan.
    repeat case_match; simplify_eq/=; done.
  - unfold Sdk.browser_fill, bind, Sdk.await, ret in Hsdk.
    rewrite ?field_insert_eq, ?(field_insert_ne "target" "value"), ?field_insert_eq
      in Hplan by done.
    repeat case_match; simplify_eq/=; done.
  - unfold Sdk.browser_type, bind, Sdk.await, ret in Hsdk.
    rewrite ?field_insert_eq, ?(field_insert_ne "target" "text"), ?field_insert_eq
      in Hplan by done.
    repeat case_match; simplify_eq/=; done.
  - unfold Sdk.browser_press, bind, Sdk.await, ret in Hsdk.
    rewrite !field_insert_eq in Hplan.
    repeat case_match; simplify_eq/=; done.
  - unfold Sdk.browser_scroll, bind, Sdk.await, ret in Hsdk.
    rewrite ?field_insert_eq, ?(field_insert_ne "direction" "amount"),
      ?field_with_field_eq, ?field_empty in Hplan by done.
    assert (to_str (js_or (default JUndefined (JNum <$> Sdk.amount args)) (JNum 500))
            = num_to_string (Sdk.amount_or_default (Sdk.amount args))) as Hamount.
    { unfold js_or, Sdk.amount_or_default. destruct (Sdk.amount args) as [a|]; [|done].
      simpl. by destruct (Z.eqb_spec a 0). }
    rewrite Hamount in Hplan.
    repeat case_match; simplify_eq/=; done.
  - unfold Sdk.browser_wait, bind, Sdk.await, ret in Hsdk.
    rewrite ?field_with_field_eq, ?(field_with_field_ne "ms" "selector"),
      ?field_with_field_eq, ?field_empty in Hplan by done.
    destruct (Sdk.ms args) as [n|], (Sdk.selector args) as [s|]; simpl in *;
      repeat case_match; simplify_eq/=; done.
Qed.

End Agree.
End Agreement.

(** * The further properties on concrete conversations *)
Module MoreRuns.
Import Scenarios Transcript Streams Vocabulary.

Lemma execute_turns_count_invocations_witness :
  Plan.execute recorder scripted (budget 15) "click the only button" (start click_then_done)
  = (Ok {| Plan.success := JBool true; Plan.summary := JStr "Clicked the button";
           Plan.turns := 2 |},
     {| Plan.browser := ["click @e1"]; Plan.service := []; Plan.invocations := 2 |})
  /\ Z.of_nat 2 = (Z.of_nat 0 + 2)%Z.
Proof.
  split; [reflexivity|].
  apply (PlanMore.execute_turns_count_invocations recorder scripted (budget 15)
           "click the only button" (start click_then_done)
           {| Plan.browser := ["click @e1"]; Plan.service := []; Plan.invocations := 2 |}
           {| Plan.success := JBool true; Plan.summary := JStr "Clicked the button";
              Plan.turns := 2 |}).
  reflexivity.
Defined.

(** A turn whose [fill] the session rejects: the key press that follows it
    in the batch is still dispatched, and the call ends with a result on the
    next turn. *)
Lemma execute_returns_when_model_answers_witness :
  (forall request s, exists response s',
      Plan.messages_create patient request s = (Fulfilled response, s'))
  /\ Plan.fill recorder (JStr "@bad") (JStr "x") []
     = (Rejected (ErrorObj "No element matches @bad"), [])
  /\ (exists r w',
        Plan.execute recorder patient (budget 15) "fill the form" (start [fill_then_press])
        = (Ok r, w'))
  /\ Plan.execute recorder patient (budget 15) "fill the form" (start [fill_then_press])
     = (Ok {| Plan.success := JBool true; Plan.summary := JStr "Giving up";
              Plan.turns := 2 |},
        {| Plan.browser := ["press Enter"]; Plan.service := []; Plan.invocations := 2 |}).
Proof.
  assert (forall request s, exists response s',
             Plan.messages_create patient request s = (Fulfilled response, s')) as H.
  { intros request [|response rest]; eexists _, _; reflexivity. }
  split; [exact H|]. split; [reflexivity|]. split; [|reflexivity].
  apply (PlanMore.execute_returns_when_model_answers recorder patient (budget 15)
           "fill the form" (start [fill_then_press]) H).
Defined.

(** The requests of scenario A, as the service saw them. *)
Lemma execute_conversation_grows_witness :
  (exists sent,
     snd (Plan.service (snd (Plan.execute recorder (recording scripted) (budget 15)
                               "click the only button" (start (click_then_done, [])))))
     = [] ++ sent
     /\ grows recorder [Plan.UserText "click the only button"]
          (start (click_then_done, [])) sent
     /\ Forall (fun exchange => standing (budget 15) (fst (fst exchange))) sent
     /\ Plan.invocations (snd (Plan.execute recorder (recording scripted) (budget 15)
                                 "click the only button" (start (click_then_done, []))))
        = 0 + length sent)
  /\ map (fun exchange : Exchange (list Plan.Response) => Plan.messages (fst (fst exchange)))
       (snd (Plan.service (snd (Plan.execute recorder (recording scripted) (budget 15)
                                  "click the only button" (start (click_then_done, []))))))
     = [ [Plan.UserText "click the only button"];
         [Plan.UserText "click the only button";
          Plan.Assistant [Plan.ToolUse click_e1];
          Plan.UserToolResults
            [ {| Plan.tool_use_id := "toolu_1"; Plan.content := "Clicked @e1" |} ]] ].
Proof.
  split; [|reflexivity].
  apply (PlanMore.execute_conversation_grows recorder scripted (budget 15)
           "click the only button" (start (click_then_done, []))).
Defined.

Lemma execute_without_budget_witness :
  (Plan.maxTurns (budget 0) <= 0)%Z
  /\ Plan.execute recorder scripted (budget 0) "click the only button" (start click_then_done)
     = (Ok {| Plan.success := JBool false;
              Plan.summary := JStr "Task incomplete after 0 turns";
              Plan.turns := 0 |}, start click_then_done).
Proof.
  split; [simpl; lia|].
  apply (PlanMore.execute_without_budget recorder scripted (budget 0)). simpl; lia.
Defined.

Lemma handle_do_turns_within_budget_witness :
  Plan.handle_do recorder scripted
    {| Plan.instruction := JStr "click the only button";
       Plan.config := Some {| Plan.model_opt := None; Plan.maxTurns_opt := Some 5%Z;
                              Plan.timeout_opt := None |} |}
    (start click_then_done)
  = (Ok (Plan.Data (JBool true) (JStr "Clicked the button") 2),
     {| Plan.browser := ["click @e1"]; Plan.service := []; Plan.invocations := 2 |})
  /\ (0 <= 2 <= 5)%Z.
Proof.
  split; [reflexivity|].
  apply (PlanMore.handle_do_turns_within_budget recorder scripted
           {| Plan.instruction := JStr "click the only button";
              Plan.config := Some {| Plan.model_opt := None; Plan.maxTurns_opt := Some 5%Z;
                                     Plan.timeout_opt := None |} |}
           {| Plan.model_opt := None; Plan.maxTurns_opt := Some 5%Z;
              Plan.timeout_opt := None |} 5
           (start click_then_done)
           {| Plan.browser := ["click @e1"]; Plan.service := []; Plan.invocations := 2 |}
           (JBool true) (JStr "Clicked the button") 2);
    [reflexivity|reflexivity|lia|reflexivity].
Defined.

Lemma executeTool_unknown_tool_witness :
  ("hover" ∉ map Plan.tool_name Plan.tools)
  /\ Plan.executeTool recorder "hover" ∅ (start tt) = (Ok "Unknown tool: hover", start tt)
  /\ Plan.executeTool recorder "done" ∅ (start tt) = (Ok "Unknown tool: done", start tt).
Proof.
  assert ("hover" ∉ map Plan.tool_name Plan.tools) as H.
  { simpl. intros H.
    repeat (apply elem_of_cons in H as [H|H]; [discriminate|]).
    by apply elem_of_nil in H. }
  split; [exact H|]. split.
  - apply (PlanMore.executeTool_unknown_tool recorder "hover"). by left.
  - apply (PlanMore.executeTool_unknown_tool recorder "done"). by right.
Defined.

Lemma executeTool_wait_leaves_session_witness :
  Plan.executeTool recorder "wait"
    (list_to_map [("ms", JNum 250); ("selector", JStr "#go")]) (start tt)
  = (Ok "Waited 250ms", start tt)
  /\ Plan.executeTool recorder "wait" (list_to_map [("ms", JNum 0)]) (start tt)
     = (Ok "No wait condition specified", start tt).
Proof.
  split.
  - rewrite (proj1 (PlanMore.executeTool_wait_leaves_session recorder
                      (list_to_map [("ms", JNum 250); ("selector", JStr "#go")])
                      (start tt))) by reflexivity.
    reflexivity.
  - apply (proj2 (PlanMore.executeTool_wait_leaves_session recorder
                    (list_to_map [("ms", JNum 0)]) (start tt))); reflexivity.
Defined.

Lemma batch_results_follow_tool_uses_witness :
  Forall (fun toolUse => Plan.is_done toolUse = false) [fill_bad; press_enter]
  /\ exists results w',
       Plan.for_toolUses recorder 1 [fill_bad; press_enter] [] (start tt)
       = (Ok (Plan.Exhausted ([] ++ results)), w')
       /\ map Plan.tool_use_id results = ["toolu_1"; "toolu_3"]
       /\ Plan.service w' = tt /\ Plan.invocations w' = 0.
Proof.
  assert (Forall (fun toolUse => Plan.is_done toolUse = false) [fill_bad; press_enter])
    as H by (repeat constructor).
  split; [exact H|].
  apply (PlanMore.batch_results_follow_tool_uses recorder 1 [fill_bad; press_enter] []
           (start tt) H).
Defined.

Lemma for_await_stops_at_result_witness :
  Sdk.is_result (Sdk.ResultSuccess "Logged in" 2) = true
  /\ Sdk.for_await (Sdk.stream_of [looking] (Sdk.Yield (Sdk.ResultSuccess "Logged in" 2)
                                               Sdk.EndOfStream))
       (Sdk.Build_Frame tt 1 0 "")
     = Sdk.for_await (Sdk.stream_of [looking] (Sdk.Yield (Sdk.ResultSuccess "Logged in" 2)
                                                 (Sdk.Raise (ErrorObj "socket closed"))))
         (Sdk.Build_Frame tt 1 0 "").
Proof.
  split; [reflexivity|].
  apply (SdkMore.for_await_stops_at_result [looking] (Sdk.ResultSuccess "Logged in" 2)).
  reflexivity.
Defined.

Lemma execute_success_has_summary_witness :
  Sdk.execute replay sdk_config "log in" (Sdk.Yield (Sdk.ResultSuccess "" 1) Sdk.EndOfStream, 0)
  = (Ok {| Sdk.success := true; Sdk.summary := "Completed"; Sdk.turns := 1 |},
     (Sdk.Yield (Sdk.ResultSuccess "" 1) Sdk.EndOfStream, 1))
  /\ "Completed" <> "".
Proof.
  split; [reflexivity|].
  apply (SdkMore.execute_success_has_summary replay sdk_config "log in"
           (Sdk.Yield (Sdk.ResultSuccess "" 1) Sdk.EndOfStream, 0)
           (Sdk.Yield (Sdk.ResultSuccess "" 1) Sdk.EndOfStream, 1)
           {| Sdk.success := true; Sdk.summary := "Completed"; Sdk.turns := 1 |});
    reflexivity.
Defined.

Lemma execute_without_result_message_witness :
  Forall (fun message => Sdk.is_result message = false) [looking; calls_tool]
  /\ exists text,
       fst (Sdk.execute replay sdk_config "log in"
              (Sdk.stream_of [looking; calls_tool] Sdk.EndOfStream, 0))
       = Ok {| Sdk.success := true; Sdk.summary := text; Sdk.turns := 2 |}
       /\ text <> "".
Proof.
  assert (Forall (fun message => Sdk.is_result message = false) [looking; calls_tool])
    as H by (repeat constructor).
  split; [exact H|].
  apply (SdkMore.execute_without_result_message replay sdk_config "log in"
           (Sdk.stream_of [looking; calls_tool] Sdk.EndOfStream, 0)
           [looking; calls_tool] eq_refl H).
Defined.

Lemma browser_wait_precedence_witness :
  Sdk.getPage page_recorder [] = (Fulfilled tt, [])
  /\ Sdk.browser_wait page_recorder {| Sdk.ms := Some 0%Z; Sdk.selector := Some "#go" |} []
     = (Ok (Sdk.text_result "Element #go appeared"), ["waitForSelector #go"])
  /\ Sdk.browser_wait page_recorder {| Sdk.ms := Some 0%Z; Sdk.selector := None |} []
     = (Ok (Sdk.text_result "No wait condition specified"), [])
  /\ Sdk.browser_wait page_recorder {| Sdk.ms := Some 250%Z; Sdk.selector := Some "#go" |} []
     = (Ok (Sdk.text_result "Waited 250ms"), ["waitForTimeout 250"]).
Proof.
  split; [reflexivity|]. split; [|split].
  - apply (proj1 (proj2 (SdkMore.browser_wait_precedence page_recorder
                           {| Sdk.ms := Some 0%Z; Sdk.selector := Some "#go" |} [] [] tt
                           eq_refl) (or_intror eq_refl)) "#go" eq_refl).
    discriminate.
  - apply (proj2 (proj2 (SdkMore.browser_wait_precedence page_recorder
                           {| Sdk.ms := Some 0%Z; Sdk.selector := None |} [] [] tt
                           eq_refl) (or_intror eq_refl))).
    by left.
  - apply (proj1 (SdkMore.browser_wait_precedence page_recorder
                    {| Sdk.ms := Some 250%Z; Sdk.selector := Some "#go" |} [] [] tt
                    eq_refl) 250%Z eq_refl).
    discriminate.
Defined.

Lemma summary_keeps_last_spoken_text_witness :
  Forall (fun message => silent message = true) [calls_tool; calls_tool]
  /\ fst (Sdk.for_await
            (Sdk.Yield (says "The form is filled in")
               (Sdk.stream_of [calls_tool; calls_tool]
                  (Sdk.Yield (Sdk.ResultSuccess "" 3) Sdk.EndOfStream)))
            (Sdk.Build_Frame tt 1 0 ""))
     = Ok {| Sdk.success := true; Sdk.summary := "The form is filled in"; Sdk.turns := 3 |}.
Proof.
  assert (Forall (fun message => silent message = true) [calls_tool; calls_tool])
    as H by (repeat constructor).
  split; [exact H|].
  apply (SdkMore.summary_keeps_last_spoken_text
           [ {| Sdk.block_type := "text"; Sdk.block_text := Some "The form is filled in" |} ]
           [calls_tool; calls_tool] 3 Sdk.EndOfStream (Sdk.Build_Frame tt 1 0 ""));
    [discriminate|discriminate|exact H].
Defined.

Lemma dispatchers_agree_on_confirmation_witness :
  Plan.executeTool_body recorder "scroll"
    (plan_input (Scroll {| Sdk.direction := Sdk.down; Sdk.amount := Some 0%Z |})) (start tt)
  = (Ok "Scrolled down 500px",
     {| Plan.browser := ["scroll down 500"]; Plan.service := tt; Plan.invocations := 0 |})
  /\ Sdk.content (Sdk.text_result "Scrolled down 500px") = ["Scrolled down 500px"].
Proof.
  split; [reflexivity|].
  apply (Agreement.dispatchers_agree_on_confirmation recorder page_recorder
           (Scroll {| Sdk.direction := Sdk.down; Sdk.amount := Some 0%Z |})
           (start tt)
           {| Plan.browser := ["scroll down 500"]; Plan.service := tt; Plan.invocations := 0 |}
           [] ["evaluate window.scrollBy(0, 500)"]
           "Scrolled down 500px" (Sdk.text_result "Scrolled down 500px"));
    reflexivity.
Defined.

End MoreRuns.
